(** * patchback: webhook event handlers ([src/patchback/event_handlers.py])

    A shallow embedding of the backport executor [backport_pr_sync], of the
    orchestrator [process_pr_backport_labels] and of the two webhook
    handlers, followed by the properties of the specification that are
    settled on it.

    Conventions of the embedding.
    - A Python [str] is a [string]; one [ascii] stands for one character,
      which is exact for 7-bit text (commit ids, ref names, decimal numbers).
    - A Python [int] is a [Z]; [str(n)] and the f-string field [{n}] are the
      signed decimal numeral of [n].
    - A payload field that may be [null] is an [option]: [None] is Python's
      [None], which an f-string field writes as the text [None].
    - Everything outside the module (pygit2, the GitHub API client, the token
      provider, the clock) is an oracle: a record of functions that say how
      each call answers, either with a value or with a raised exception.
    - An effectful function returns its outcome together with the list of
      external calls it issued, in order.  Logging is not modelled. *)

From Stdlib Require Import ZArith List String Ascii Bool Lia.
From Stdlib Require Import DecimalString DecimalZ.
Import ListNotations.
Local Open Scope string_scope.
Local Open Scope Z_scope.
Set Warnings "-register-all".

(** ** Python strings *)

Module PyStr.

(** [str(n)] for an [int]. *)
Definition of_int (n : Z) : string := NilEmpty.string_of_int (Z.to_int n).

(** [c in s] for a one-character [c]. *)
Fixpoint char_in (c : ascii) (s : string) : bool :=
  match s with
  | EmptyString => false
  | String a s' => Ascii.eqb a c || char_in c s'
  end.

(** [s.startswith(p)]. *)
Definition startswith (s p : string) : bool := String.prefix p s.

(** [s[n:]]. *)
Fixpoint slice_from (n : nat) (s : string) : string :=
  match n, s with
  | O, _ => s
  | S _, EmptyString => EmptyString
  | S n', String _ s' => slice_from n' s'
  end.

(** [s[:n]]. *)
Definition slice_to (n : nat) (s : string) : string := String.substring 0 n s.

(** [s.replace(c, r)] for a one-character [c]. *)
Fixpoint replace_char (c : ascii) (r : string) (s : string) : string :=
  match s with
  | EmptyString => EmptyString
  | String a s' =>
      if Ascii.eqb a c then r ++ replace_char c r s'
      else String a (replace_char c r s')
  end.

(** The f-string field [{x}] for an [x] that is a [str] or [None]. *)
Definition of_optional (x : option string) : string :=
  match x with
  | Some s => s
  | None => "None"
  end.


End PyStr.

(** ** The backport branch name (lines 52-55) *)

Definition backport_branch_name
  (target_branch merge_commit_sha : string) (pr_number : Z) : string :=
  "patchback/backports/" ++ target_branch ++ "/" ++
  merge_commit_sha ++ "/pr" ++ PyStr.of_int pr_number.

(** ** Exceptions

    The classes the handlers discriminate on, with Python's subclass
    relation between them: [KeyError] and [IndexError] derive from
    [LookupError] (builtins), [ValidationError] from [BadRequest]
    (gidgethub).  [GitError] is pygit2's.  An exception carries what the
    code reads from it: [str(e)] and, for HTTP errors, [e.status_code]. *)

Inductive exn_class : Type :=
| LookupError
| KeyError
| IndexError
| PermissionError
| GitError
| BadRequest
| ValidationError
| OtherError (name : string).

Definition subclass (c d : exn_class) : bool :=
  match c, d with
  | LookupError, LookupError => true
  | KeyError, KeyError | KeyError, LookupError => true
  | IndexError, IndexError | IndexError, LookupError => true
  | PermissionError, PermissionError => true
  | GitError, GitError => true
  | BadRequest, BadRequest => true
  | ValidationError, ValidationError | ValidationError, BadRequest => true
  | OtherError a, OtherError b => String.eqb a b
  | _, _ => false
  end.

Record exn : Type := mkExn {
  exn_cls : exn_class;
  exn_str : string;
  exn_status_code : option Z
}.

Definition isinstance (e : exn) (c : exn_class) : bool := subclass (exn_cls e) c.

(** [http.client.FORBIDDEN] *)
Definition FORBIDDEN : Z := 403.

(** [e.status_code != code] *)
Definition status_code_ne (e : exn) (code : Z) : bool :=
  match exn_status_code e with
  | Some c => negb (c =? code)
  | None => true
  end.

Inductive result (A : Type) : Type :=
| Ok (a : A)
| Raise (e : exn).
Arguments Ok {A} a.
Arguments Raise {A} e.

(** ** Request payloads (the [data=] dictionaries) *)

Inductive json : Type :=
| JStr (s : string)
| JBool (b : bool)
| JObj (fields : list (string * json)).

Fixpoint assoc (k : string) (fields : list (string * json)) : option json :=
  match fields with
  | [] => None
  | (k', v) :: rest => if String.eqb k' k then Some v else assoc k rest
  end.

(** [data[k]], when [data] is a dictionary that has the key. *)
Definition jget (k : string) (data : json) : option json :=
  match data with
  | JObj fields => assoc k fields
  | _ => None
  end.

(** ** Git objects, as far as the executor reads them *)

Definition Oid : Type := string.

Record Signature : Type := mkSignature {
  sig_name : string;
  sig_email : string
}.

Inductive Commit : Type := mkCommit {
  oid : Oid;
  author : Signature;
  message : string;
  tree : Oid;
  parents : list Commit
}.

Record Branch : Type := mkBranch {
  branch_name : string;  (* the full reference name *)
  branch_target : Oid
}.

Definition Index : Type := nat.

(** The decoded body of a successful API [POST]; the handler reads
    [resp["id"]] of a check run and [resp["html_url"]] of a pull request. *)
Record Response : Type := mkResponse {
  resp_id : Z;
  resp_html_url : string
}.

(** ** External calls

    One constructor per call that leaves the module, with the arguments the
    code passes. *)

Inductive call : Type :=
| ApiPost (uri : string) (preview_api_version : option string) (data : json)
| ApiPatch (uri : string) (preview_api_version : option string) (data : json)
| GetToken
| TemporaryDirectory (prefix suffix : string)
| TemporaryDirectoryCleanup
| CloneRepository (url path : string) (bare : bool) (token : string)
| AddFetch (remote refspec : string)
| Fetch (token : string)
| AddPush (remote refspec : string)
| RevparseSingle (rev : string)
| BranchLookup (name : string)
| BranchCreate (name : string) (at_commit : Commit)
| MergeBase (a b : Oid)
| MergeTrees (ancestor : Oid) (ours : Branch) (theirs : Commit)
| WriteTree (index : Index)
| CreateCommit (ref : string) (c_author c_committer : Signature)
    (c_message : string) (c_tree : Oid) (c_parents : list Oid)
| Push (refspecs : list string) (token : string).

(** How the outside answers each call. *)
Record World : Type := mkWorld {
  utcnow_isoformat : nat -> string;  (* the k-th reading of the clock *)
  gh_post : string -> json -> result Response;
  gh_patch : string -> json -> result unit;
  get_token : result string;
  mkdtemp : string -> string -> result string;
  clone_repository : string -> string -> result unit;
  remotes_add_fetch : string -> string -> result unit;
  remote_fetch : result unit;
  remotes_add_push : string -> string -> result unit;
  revparse_single : string -> result Commit;
  branches_getitem : string -> result Commit;  (* already peeled *)
  branches_local_create : string -> Commit -> result unit;
  merge_base : Oid -> Oid -> result (option Oid);
  merge_trees : Oid -> Branch -> Commit -> result Index;
  write_tree : Index -> result Oid;
  create_commit :
    string -> Signature -> Signature -> string -> Oid -> list Oid -> result unit;
  remote_push : list string -> result unit
}.

(** ** A writer and error monad: outcome and calls issued *)

Definition M (A : Type) : Type := (result A * list call)%type.

Definition ret {A} (a : A) : M A := (Ok a, []).

Definition raise {A} (e : exn) : M A := (Raise e, []).

Definition bind {A B} (m : M A) (f : A -> M B) : M B :=
  match m with
  | (Ok a, t) => let (r, t') := f a in (r, (t ++ t')%list)
  | (Raise e, t) => (Raise e, t)
  end.

Notation "x <- m ;; k" := (bind m (fun x => k))
  (at level 61, m at next level, right associativity).
Notation "m ;; k" := (bind m (fun _ => k))
  (at level 61, right associativity).

(** Issue the call [c]; the world answers [r]. *)
Definition perform {A} (c : call) (r : result A) : M A := (r, [c]).

(** [try: body / except ...: handler / else: rest].  The handler receives
    every exception of the body and re-raises those no clause matches;
    exceptions of [rest] are not handled. *)
Definition try_except_else {A B} (body : M A) (handler : exn -> M B)
  (rest : A -> M B) : M B :=
  match body with
  | (Ok a, t) => let (r, t') := rest a in (r, (t ++ t')%list)
  | (Raise e, t) => let (r, t') := handler e in (r, (t ++ t')%list)
  end.

(** [with tempfile.TemporaryDirectory(prefix, suffix) as tmp_dir: body];
    the directory is removed however [body] ends. *)
Definition with_TemporaryDirectory {A} (w : World) (prefix suffix : string)
  (body : string -> M A) : M A :=
  tmp_dir <- perform (TemporaryDirectory prefix suffix) (mkdtemp w prefix suffix) ;;
  let (r, t) := body tmp_dir in
  (r, (t ++ [TemporaryDirectoryCleanup])%list).

(** [xs[0]] *)
Definition first_item {A} (xs : list A) : M A :=
  match xs with
  | x :: _ => ret x
  | [] => raise (mkExn IndexError "list index out of range" None)
  end.

(** ** Module constants (lines 23-24) *)

Definition BACKPORT_LABEL_PREFIX : string := "backport-".
Definition BACKPORT_LABEL_LEN : nat := String.length BACKPORT_LABEL_PREFIX.

(** ** The executor (lines 41-145) *)

Definition bot_signature : Signature :=
  mkSignature "Patchback" "patchback@sanitizers.bot".

Definition push_forbidden_message : string := "unexpected http status code: 403".

(** The [PermissionError] of lines 137-141. *)
Definition push_permission_error (repo_remote : string) : exn :=
  mkExn PermissionError
    ("Current GitHub App installation does not grant sufficient "
     ++ "privileges for pushing to " ++ repo_remote ++ ". `Contents: "
     ++ "write` permission is necessary to fix this.") None.

(** The calls are those of the source, in its order.  What the source reads
    off pygit2's objects without a call is computed here: [repo.remotes['origin']]
    is the remote of the fresh clone; a branch created as [name] at a commit
    is the reference [refs/heads/<name>] with that commit as target; the
    credentials callbacks carry the token and nothing else.  The cause that
    [raise ... from] records is not kept. *)
Definition backport_pr_sync (w : World) (pr_number : Z)
  (merge_commit_sha target_branch repo_slug repo_remote
   installation_access_token : string) : M string :=
  let backport_pr_branch :=
    backport_branch_name target_branch merge_commit_sha pr_number in
  let n := PyStr.of_int pr_number in
  with_TemporaryDirectory w
    (PyStr.replace_char "/" "--" repo_slug ++ "---" ++ target_branch ++ "---")
    ("---PR-" ++ n ++ ".git")
    (fun tmp_dir =>
      try_except_else
        (perform
           (CloneRepository repo_remote tmp_dir true installation_access_token)
           (clone_repository w repo_remote tmp_dir))
        (fun key_err =>
           if isinstance key_err KeyError then
             raise (mkExn LookupError
                      ("Failed to check out branch " ++ target_branch) None)
           else raise key_err)
        (fun _ =>
      perform
        (AddFetch "origin"
           ("+refs/pull/" ++ n ++ "/merge:refs/merge/origin/" ++ n))
        (remotes_add_fetch w "origin"
           ("+refs/pull/" ++ n ++ "/merge:refs/merge/origin/" ++ n)) ;;
      perform
        (AddFetch "origin"
           ("+refs/pull/" ++ n ++ "/head:refs/pull/origin/" ++ n))
        (remotes_add_fetch w "origin"
           ("+refs/pull/" ++ n ++ "/head:refs/pull/origin/" ++ n)) ;;
      perform (Fetch installation_access_token) (remote_fetch w) ;;
      perform
        (AddPush "origin" (target_branch ++ ":" ++ backport_pr_branch))
        (remotes_add_push w "origin"
           (target_branch ++ ":" ++ backport_pr_branch)) ;;
      cherry <- perform (RevparseSingle merge_commit_sha)
                  (revparse_single w merge_commit_sha) ;;
      tip <- perform (BranchLookup ("origin/" ++ target_branch))
               (branches_getitem w ("origin/" ++ target_branch)) ;;
      perform (BranchCreate backport_pr_branch tip)
        (branches_local_create w backport_pr_branch tip) ;;
      let backport_branch :=
        mkBranch ("refs/heads/" ++ backport_pr_branch) (oid tip) in
      perform (MergeBase (oid cherry) (branch_target backport_branch))
        (merge_base w (oid cherry) (branch_target backport_branch)) ;;
      parent0 <- first_item (parents cherry) ;;
      let base_tree := tree parent0 in
      index <- perform (MergeTrees base_tree backport_branch cherry)
                 (merge_trees w base_tree backport_branch cherry) ;;
      tree_id <- perform (WriteTree index) (write_tree w index) ;;
      let committer := bot_signature in
      perform
        (CreateCommit (branch_name backport_branch) (author cherry) committer
           (message cherry) tree_id [branch_target backport_branch])
        (create_commit w (branch_name backport_branch) (author cherry)
           committer (message cherry) tree_id
           [branch_target backport_branch]) ;;
      try_except_else
        (perform
           (Push ["HEAD:refs/heads/" ++ backport_pr_branch]
              installation_access_token)
           (remote_push w ["HEAD:refs/heads/" ++ backport_pr_branch]))
        (fun pg2_err =>
           if isinstance pg2_err GitError then
             if negb (String.eqb (exn_str pg2_err) push_forbidden_message)
             then raise pg2_err
             else raise (push_permission_error repo_remote)
           else raise pg2_err)
        (fun _ => ret tt))) ;;
  ret backport_pr_branch.

(** ** The orchestrator (lines 235-464) *)

Definition LF : string := String "010"%char EmptyString.

Definition not_accessible_message : string :=
  "Resource not accessible by integration".

(** The [output] dictionary of a check-run update. *)
Definition output_data (title text summary : string) : json :=
  JObj [("title", JStr title); ("text", JStr text); ("summary", JStr summary)].

(** [check_runs_base_uri] (line 247) and [check_run_name] (line 248). *)
Definition check_runs_uri (repo_slug : string) : string :=
  "/repos/" ++ repo_slug ++ "/check-runs".

Definition check_run_name_of (target_branch : string) : string :=
  "Backport to " ++ target_branch.

(** The check-run creation payload (lines 255-265). *)
Definition queued_data (name head_sha started_at : string) : json :=
  JObj [("name", JStr name);
        ("head_sha", JStr head_sha);
        ("status", JStr "queued");
        ("started_at", JStr started_at)].

(** The first check-run update (lines 288-291). *)
Definition in_progress_data (name : string) : json :=
  JObj [("name", JStr name); ("status", JStr "in_progress")].

(** The check-run update that ends the run. *)
Definition completed_data (name conclusion completed_at : string)
  (output : json) : json :=
  JObj [("name", JStr name);
        ("status", JStr "completed");
        ("conclusion", JStr conclusion);
        ("completed_at", JStr completed_at);
        ("output", output)].

(** The pull-request creation payload (lines 377-387). *)
Definition pull_request_data (pr_number : Z) (pr_title : string)
  (pr_body : option string)
  (pr_base_ref pr_merge_commit target_branch backport_pr_branch : string)
  : json :=
  JObj [("title",
         JStr ("[PR #" ++ PyStr.of_int pr_number ++ "/"
               ++ PyStr.slice_to 8 pr_merge_commit ++ " backport]"
               ++ "[" ++ target_branch ++ "] " ++ pr_title));
        ("head", JStr backport_pr_branch);
        ("base", JStr target_branch);
        ("body",
         JStr ("**This is a backport of PR #" ++ PyStr.of_int pr_number ++ " as "
               ++ "merged into " ++ pr_base_ref ++ " "
               ++ "(" ++ pr_merge_commit ++ ").**" ++ LF ++ LF
               ++ PyStr.of_optional pr_body));
        ("maintainer_can_modify", JBool true);
        ("draft", JBool false)].

(** [check_runs_updates_uri] is [Some uri] exactly when [use_checks_api] is
    [True]; [update] is a [gh_api.patch] guarded by [use_checks_api]. *)
Definition process_pr_backport_labels (w : World) (pr_number : Z)
  (pr_title : string) (pr_body : option string)
  (pr_base_ref pr_head_ref pr_merge_commit target_branch pr_api_url repo_slug
   git_url : string) : M unit :=
  let check_runs_base_uri := check_runs_uri repo_slug in
  let check_run_name := check_run_name_of target_branch in
  let queued :=
    queued_data check_run_name pr_head_ref (utcnow_isoformat w 0 ++ "Z") in
  check_runs_updates_uri <-
    try_except_else
      (perform (ApiPost check_runs_base_uri (Some "antiope") queued)
         (gh_post w check_runs_base_uri queued))
      (fun bad_req_err =>
         if isinstance bad_req_err BadRequest then
           if status_code_ne bad_req_err FORBIDDEN
              || negb (String.eqb (exn_str bad_req_err) not_accessible_message)
           then raise bad_req_err
           else ret None
         else raise bad_req_err)
      (fun checks_resp =>
         ret (Some (check_runs_base_uri ++ "/"
                    ++ PyStr.of_int (resp_id checks_resp)))) ;;
  let update (data : json) : M unit :=
    match check_runs_updates_uri with
    | Some uri => perform (ApiPatch uri (Some "antiope") data) (gh_patch w uri data)
    | None => ret tt
    end in
  let completed_at := utcnow_isoformat w 1 ++ "Z" in
  update (in_progress_data check_run_name) ;;
  try_except_else
    (token <- perform GetToken (get_token w) ;;
     backport_pr_sync w pr_number pr_merge_commit target_branch repo_slug
       git_url token)
    (fun err =>
       if isinstance err LookupError then
         update
           (completed_data check_run_name "neutral" completed_at
              (output_data
                 (check_run_name ++ ": cherry-picking failed "
                  ++ "— target branch does not exist")
                 "" (exn_str err)))
       else if isinstance err PermissionError then
         update
           (completed_data check_run_name "neutral" completed_at
              (output_data
                 (check_run_name ++ ": cherry-picking failed "
                  ++ "— could not push")
                 "" (exn_str err)))
       else raise err)
    (fun backport_pr_branch =>
       update
         (JObj [("name", JStr check_run_name);
                ("status", JStr "in_progress");
                ("output",
                 output_data
                   (check_run_name ++ ": cherry-pick succeeded")
                   "PR branch created, proceeding with making a PR."
                   ("Backport PR branch: `" ++ backport_pr_branch))]) ;;
       let pr_data :=
         pull_request_data pr_number pr_title pr_body pr_base_ref
           pr_merge_commit target_branch backport_pr_branch in
       try_except_else
         (perform (ApiPost pr_api_url None pr_data) (gh_post w pr_api_url pr_data))
         (fun err =>
            if isinstance err ValidationError then
              update
                (completed_data check_run_name "neutral" completed_at
                   (output_data
                      (check_run_name ++ ": creation of the "
                       ++ "backport PR failed")
                      ""
                      ("Backport PR branch: `" ++ backport_pr_branch ++ LF ++ LF
                       ++ exn_str err)))
            else if isinstance err BadRequest then
              if status_code_ne err FORBIDDEN
                 || negb (String.eqb (exn_str err) not_accessible_message)
              then raise err
              else
                update
                  (completed_data check_run_name "neutral" completed_at
                     (output_data
                        (check_run_name ++ ": creation of the "
                         ++ "backport PR failed")
                        ""
                        ("Backport PR branch: `" ++ backport_pr_branch ++ LF
                         ++ LF ++ exn_str err)))
            else raise err)
         (fun pr_resp =>
            update
              (completed_data check_run_name "success" completed_at
                 (output_data
                    (check_run_name ++ ": backport PR created")
                    ("Backported as " ++ resp_html_url pr_resp)
                    ("Backport PR branch: `" ++ backport_pr_branch))))).

(** ** The webhook handlers (lines 27-38 and 148-232)

    The payload fields the handlers read.  Routing by event name and action
    is done by the framework before a handler is entered. *)

Record Label : Type := mkLabel { label_name : string }.

Record PullRequest : Type := mkPullRequest {
  merged : bool;
  labels : list Label;
  merge_commit_sha : string;
  title : string;
  body : option string;  (* [null] for a pull request without description *)
  base_ref : string;
  head_ref : string
}.

Record Repository : Type := mkRepository {
  pulls_url : string;
  full_name : string;
  clone_url : string
}.

Definition ensure_pr_merged {K : Type}
  (event_handler : Z -> PullRequest -> K -> M unit)
  (number : Z) (pull_request : PullRequest) (kwargs : K) : M unit :=
  if negb (merged pull_request) then ret tt
  else event_handler number pull_request kwargs.

(** The list comprehension of lines 159-163. *)
Definition target_branches_of (pull_request : PullRequest) : list string :=
  let labels := map label_name (labels pull_request) in
  map (PyStr.slice_from BACKPORT_LABEL_LEN)
    (filter (fun label => PyStr.startswith label BACKPORT_LABEL_PREFIX) labels).

(** [for x in xs: body]; [k] counts the iterations. *)
Fixpoint for_each {A : Type} (k : nat) (xs : list A)
  (body : nat -> A -> M unit) : M unit :=
  match xs with
  | [] => ret tt
  | x :: xs' => body k x ;; for_each (S k) xs' body
  end.

(** [ws k] is the world as the [k]-th request of the event meets it. *)
Definition on_merge_of_labeled_pr (ws : nat -> World) :
  Z -> PullRequest -> Repository -> M unit :=
  ensure_pr_merged (fun number pull_request (repository : Repository) =>
    let target_branches := target_branches_of pull_request in
    match target_branches with
    | [] => ret tt
    | _ =>
      for_each 0 target_branches (fun k target_branch =>
        process_pr_backport_labels (ws k) number
          (title pull_request) (body pull_request)
          (base_ref pull_request) (head_ref pull_request)
          (merge_commit_sha pull_request) target_branch
          (pulls_url repository) (full_name repository)
          (clone_url repository))
    end).

Definition on_label_added_to_merged_pr (w : World) :
  Z -> PullRequest -> Label * Repository -> M unit :=
  ensure_pr_merged (fun number pull_request (kwargs : Label * Repository) =>
    let (label, repository) := kwargs in
    let label_name := label_name label in
    if negb (PyStr.startswith label_name BACKPORT_LABEL_PREFIX) then ret tt
    else
      let target_branch := PyStr.slice_from BACKPORT_LABEL_LEN label_name in
      process_pr_backport_labels w number
        (title pull_request) (body pull_request)
        (base_ref pull_request) (head_ref pull_request)
        (merge_commit_sha pull_request) target_branch
        (pulls_url repository) (full_name repository)
        (clone_url repository)).

(** ** Reading a list of calls *)

Definition is_api_call (c : call) : bool :=
  match c with
  | ApiPost _ _ _ | ApiPatch _ _ _ | GetToken => true
  | _ => false
  end.

(** A status call: an update of the check run. *)
Definition is_update (c : call) : bool :=
  match c with
  | ApiPatch _ _ _ => true
  | _ => false
  end.

Definition has_string (k v : string) (data : json) : bool :=
  match jget k data with
  | Some (JStr s) => String.eqb s v
  | _ => false
  end.

(** A terminal transition: an update to [completed]. *)
Definition is_terminal_update (c : call) : bool :=
  match c with
  | ApiPatch _ _ data => has_string "status" "completed" data
  | _ => false
  end.

Definition is_success_update (c : call) : bool :=
  match c with
  | ApiPatch _ _ data =>
      has_string "status" "completed" data
      && has_string "conclusion" "success" data
  | _ => false
  end.

(** A pull-request creation: a [POST] that names a head branch. *)
Definition creates_pull_request (c : call) : bool :=
  match c with
  | ApiPost _ _ data =>
      match jget "head" data with
      | Some _ => true
      | None => false
      end
  | _ => false
  end.

(** A check-run creation: a [POST] of a queued check run. *)
Definition creates_check_run (c : call) : bool :=
  match c with
  | ApiPost _ _ data => has_string "status" "queued" data
  | _ => false
  end.

Definition is_merge_trees (c : call) : bool :=
  match c with
  | MergeTrees _ _ _ => true
  | _ => false
  end.

Definition is_create_commit (c : call) : bool :=
  match c with
  | CreateCommit _ _ _ _ _ _ => true
  | _ => false
  end.

(** The calls of the requests of a fan-out, one after the other. *)
Fixpoint calls_of_each {A : Type} (k : nat) (xs : list A)
  (body : nat -> A -> M unit) : list call :=
  match xs with
  | [] => []
  | x :: xs' => (snd (body k x) ++ calls_of_each (S k) xs' body)%list
  end.

(** ** Concrete worlds, for the examples *)

Module Sample.

Definition alice : Signature := mkSignature "Alice" "alice@example.org".

Definition parent_commit : Commit :=
  mkCommit "9f2c" alice "Earlier work" "tree-parent" [].

Definition cherry_commit : Commit :=
  mkCommit "0123456789abcdef" alice "Merge pull request #42" "tree-cherry"
    [parent_commit].

Definition tip_commit : Commit :=
  mkCommit "77aa" alice "Release 1.2" "tree-tip" [].

Definition sha : string := "0123456789abcdef".
Definition slug : string := "octo/repo".
Definition remote : string := "https://github.com/octo/repo.git".
Definition pulls : string := "https://api.github.com/repos/octo/repo/pulls".

Definition world (post : string -> json -> result Response)
  (clone : result unit) (lookup : result Commit) (push : result unit) : World :=
  mkWorld (fun k => "2020-01-01T00:00:0" ++ PyStr.of_int (Z.of_nat k))
    post (fun _ _ => Ok tt) (Ok "ghs_token") (fun _ _ => Ok "/tmp/clone")
    (fun _ _ => clone) (fun _ _ => Ok tt) (Ok tt) (fun _ _ => Ok tt)
    (fun _ => Ok cherry_commit) (fun _ => lookup) (fun _ _ => Ok tt)
    (fun _ _ => Ok None) (fun _ _ _ => Ok 1%nat) (fun _ => Ok "tree-merged")
    (fun _ _ _ _ _ _ => Ok tt) (fun _ => push).

Definition post_ok : string -> json -> result Response :=
  fun _ _ => Ok (mkResponse 7 "https://github.com/octo/repo/pull/43").

Definition not_accessible : exn :=
  mkExn BadRequest "Resource not accessible by integration" (Some 403).

(** Check runs are refused for lack of scope; pull requests are accepted. *)
Definition post_checks_denied : string -> json -> result Response :=
  fun uri data =>
    if String.eqb uri "/repos/octo/repo/check-runs" then Raise not_accessible
    else post_ok uri data.

Definition server_error : exn :=
  mkExn (OtherError "GitHubBroken") "Internal Server Error" (Some 500).

Definition post_checks_broken : string -> json -> result Response :=
  fun uri data =>
    if String.eqb uri "/repos/octo/repo/check-runs" then Raise server_error
    else post_ok uri data.


Definition push_forbidden : exn :=
  mkExn GitError "unexpected http status code: 403" None.

Definition connection_failed : exn :=
  mkExn GitError "failed to connect to github.com" None.

Definition happy : World := world post_ok (Ok tt) (Ok tip_commit) (Ok tt).


Definition push_denied : World :=
  world post_ok (Ok tt) (Ok tip_commit) (Raise push_forbidden).

Definition checks_denied : World :=
  world post_checks_denied (Ok tt) (Ok tip_commit) (Ok tt).

Definition checks_broken : World :=
  world post_checks_broken (Ok tt) (Ok tip_commit) (Ok tt).

Definition unreachable : World :=
  world post_ok (Raise connection_failed) (Ok tip_commit) (Ok tt).

Definition pr5 : PullRequest :=
  mkPullRequest true
    [mkLabel "bug"; mkLabel "backport-v1.2"; mkLabel "backport-v1.3"]
    sha "Fix the parser" (Some "Closes #4.") "main" "fix-parser".

Definition repo : Repository := mkRepository pulls slug remote.

(** The first request of the event meets an unreachable remote. *)
Definition first_unreachable (k : nat) : World :=
  match k with
  | O => unreachable
  | _ => happy
  end.

End Sample.

(** The requests of the examples. *)

Module Runs.

Import Sample.

(** Merged pull request #42 ([Fix the parser]) is to be backported to
    [target_branch] in the world [w]. *)
Definition request (w : World) (target_branch : string) : M unit :=
  process_pr_backport_labels w 42 "Fix the parser" (Some "Closes #4.") "main"
    "fix-parser" sha target_branch pulls slug remote.

Definition executor (w : World) (target_branch : string) : M string :=
  backport_pr_sync w 42 sha target_branch slug remote "ghs_token".

End Runs.

(** ** Further readings of a list of calls *)

Definition is_tmpdir_call (c : call) : bool :=
  match c with
  | TemporaryDirectory _ _ | TemporaryDirectoryCleanup => true
  | _ => false
  end.

Definition is_push (c : call) : bool :=
  match c with
  | Push _ _ => true
  | _ => false
  end.

Definition is_get_token (c : call) : bool :=
  match c with
  | GetToken => true
  | _ => false
  end.

(** The calls after the clone that change the clone or the remote. *)
Definition is_git_work (c : call) : bool :=
  match c with
  | AddFetch _ _ | Fetch _ | AddPush _ _ | RevparseSingle _ | BranchLookup _
  | BranchCreate _ _ | MergeBase _ _ | MergeTrees _ _ _ | WriteTree _
  | CreateCommit _ _ _ _ _ _ | Push _ _ => true
  | _ => false
  end.

(** The calls that authenticate carry the token [tok]. *)
Definition carries_token (tok : string) (c : call) : Prop :=
  match c with
  | CloneRepository _ _ _ t | Fetch t | Push _ t => t = tok
  | _ => True
  end.

(** No call follows the first call that satisfies [p]. *)
Fixpoint ends_at (p : call -> bool) (calls : list call) : bool :=
  match calls with
  | [] => true
  | c :: rest =>
      if p c then match rest with [] => true | _ :: _ => false end
      else ends_at p rest
  end.

(** The creations of the check runs of a fan-out: one per target branch, in
    their order, each at the time its request meets. *)
Fixpoint check_run_creations (ws : nat -> World) (k : nat)
  (pr_head_ref repo_slug : string) (targets : list string) : list call :=
  match targets with
  | [] => []
  | target_branch :: rest =>
      ApiPost ("/repos/" ++ repo_slug ++ "/check-runs") (Some "antiope")
        (JObj [("name", JStr ("Backport to " ++ target_branch));
               ("head_sha", JStr pr_head_ref);
               ("status", JStr "queued");
               ("started_at", JStr (utcnow_isoformat (ws k) 0 ++ "Z"))])
      :: check_run_creations ws (S k) pr_head_ref repo_slug rest
  end.

(** ** Worlds that differ in one answer *)

Definition with_gh_post (w : World)
  (post : string -> json -> result Response) : World :=
  mkWorld (utcnow_isoformat w) post (gh_patch w) (get_token w) (mkdtemp w)
    (clone_repository w) (remotes_add_fetch w) (remote_fetch w)
    (remotes_add_push w) (revparse_single w) (branches_getitem w)
    (branches_local_create w) (merge_base w) (merge_trees w) (write_tree w)
    (create_commit w) (remote_push w).

Definition with_revparse_single (w : World)
  (revparse : string -> result Commit) : World :=
  mkWorld (utcnow_isoformat w) (gh_post w) (gh_patch w) (get_token w)
    (mkdtemp w) (clone_repository w) (remotes_add_fetch w) (remote_fetch w)
    (remotes_add_push w) revparse (branches_getitem w)
    (branches_local_create w) (merge_base w) (merge_trees w) (write_tree w)
    (create_commit w) (remote_push w).

Definition with_get_token (w : World) (token : result string) : World :=
  mkWorld (utcnow_isoformat w) (gh_post w) (gh_patch w) token (mkdtemp w)
    (clone_repository w) (remotes_add_fetch w) (remote_fetch w)
    (remotes_add_push w) (revparse_single w) (branches_getitem w)
    (branches_local_create w) (merge_base w) (merge_trees w) (write_tree w)
    (create_commit w) (remote_push w).

Definition with_gh_patch (w : World)
  (patch : string -> json -> result unit) : World :=
  mkWorld (utcnow_isoformat w) (gh_post w) patch (get_token w) (mkdtemp w)
    (clone_repository w) (remotes_add_fetch w) (remote_fetch w)
    (remotes_add_push w) (revparse_single w) (branches_getitem w)
    (branches_local_create w) (merge_base w) (merge_trees w) (write_tree w)
    (create_commit w) (remote_push w).


(** The world [w] with the check runs of [repo_slug] refused for lack of
    scope. *)
Definition deny_check_runs (w : World) (repo_slug : string) : World :=
  with_gh_post w (fun uri data =>
    if String.eqb uri (check_runs_uri repo_slug)
    then Raise (mkExn BadRequest not_accessible_message (Some FORBIDDEN))
    else gh_post w uri data).

Module Cases.

Import Sample.

Definition unknown_commit_error : exn :=
  mkExn KeyError "'0123456789abcdef'" None.

(** The merge commit is not in the clone. *)
Definition unknown_commit : World :=
  with_revparse_single happy (fun _ => Raise unknown_commit_error).

Definition root_commit : Commit :=
  mkCommit "0123456789abcdef" alice "Initial commit" "tree-root" [].

(** The commit to pick has no parent. *)
Definition cherry_is_root : World :=
  with_revparse_single happy (fun _ => Ok root_commit).

Definition already_exists : exn :=
  mkExn ValidationError "A pull request already exists for octo:patchback/backports/v1.2/0123456789abcdef/pr42."
    (Some 422).

(** Check runs are accepted; the pull request is refused as invalid. *)
Definition pull_request_refused : World :=
  with_gh_post happy (fun uri data =>
    if String.eqb uri pulls then Raise already_exists else post_ok uri data).

Definition token_unavailable : exn :=
  mkExn (OtherError "ClientConnectionError") "Cannot connect to host api.github.com"
    None.

Definition no_token : World :=
  with_get_token happy (Raise token_unavailable).




(** Check runs are refused for lack of scope, and the remote cannot be
    reached. *)
Definition checks_denied_unreachable : World :=
  world post_checks_denied (Raise connection_failed) (Ok tip_commit) (Ok tt).

(** The API accepts the first update of a check run and fails on those that
    carry an output. *)
Definition updates_break : World :=
  with_gh_patch happy (fun _ data =>
    match jget "output" data with
    | Some _ => Raise server_error
    | None => Ok tt
    end).

Definition pr_without_backport_labels : PullRequest :=
  mkPullRequest true [mkLabel "bug"; mkLabel "Backport-v1.2"; mkLabel "backport"]
    sha "Fix the parser" (Some "Closes #4.") "main" "fix-parser".

End Cases.

(** ** Facts about strings *)

Section StringFacts.

Lemma append_assoc (a b c : string) : (a ++ b) ++ c = a ++ (b ++ c).
Proof. induction a as [|x a IH]; simpl; [reflexivity | now rewrite IH]. Qed.

Lemma append_inv_head (p a b : string) : p ++ a = p ++ b -> a = b.
Proof.
  induction p as [|x p IH]; simpl; intros H; [exact H|].
  injection H as H. now apply IH.
Qed.

Lemma char_in_append c (a b : string) :
  PyStr.char_in c (a ++ b) = PyStr.char_in c a || PyStr.char_in c b.
Proof.
  induction a as [|x a IH]; simpl; [reflexivity|].
  now rewrite IH, orb_assoc.
Qed.

Lemma char_in_sep c (a b : string) : PyStr.char_in c (a ++ String c b) = true.
Proof.
  rewrite char_in_append. simpl. rewrite Ascii.eqb_refl.
  now rewrite orb_true_r.
Qed.

(** A string is cut in one way only at its last occurrence of [c]. *)
Lemma append_last_sep_inj c (a1 a2 b1 b2 : string) :
  PyStr.char_in c b1 = false -> PyStr.char_in c b2 = false ->
  a1 ++ String c b1 = a2 ++ String c b2 -> a1 = a2 /\ b1 = b2.
Proof.
  revert a2. induction a1 as [|x a1 IH]; intros [|y a2] H1 H2 E; simpl in E.
  - injection E as E. now split.
  - injection E as Ey E. subst b1. now rewrite char_in_sep in H1.
  - injection E as Ex E. subst b2. now rewrite char_in_sep in H2.
  - injection E as Exy E. subst y.
    destruct (IH a2 H1 H2 E) as [-> ->]. now split.
Qed.

Lemma uint_no_slash d : PyStr.char_in "/" (NilEmpty.string_of_uint d) = false.
Proof. induction d; simpl; auto. Qed.

Lemma of_int_no_slash n : PyStr.char_in "/" (PyStr.of_int n) = false.
Proof.
  unfold PyStr.of_int. destruct (Z.to_int n); simpl; apply uint_no_slash.
Qed.

Lemma of_int_inj n m : PyStr.of_int n = PyStr.of_int m -> n = m.
Proof.
  unfold PyStr.of_int. intros E.
  assert (Some (Z.to_int n) = Some (Z.to_int m)) as [= E'].
  { rewrite <- !NilEmpty.isi. now rewrite E. }
  rewrite <- (DecimalZ.of_to n), <- (DecimalZ.of_to m). now rewrite E'.
Qed.



End StringFacts.

Example of_int_42 : PyStr.of_int 42 = "42". Proof. reflexivity. Qed.
Example of_int_0 : PyStr.of_int 0 = "0". Proof. reflexivity. Qed.
Example of_int_neg : PyStr.of_int (-7) = "-7". Proof. reflexivity. Qed.
Example name_42 :
  backport_branch_name "v1.2" "0123abcd" 42 = "patchback/backports/v1.2/0123abcd/pr42".
Proof. reflexivity. Qed.

(** ** Case analysis on the answers of the world *)

Ltac unfold_m :=
  unfold with_TemporaryDirectory, try_except_else, bind, perform, first_item,
    ret, raise.

Ltac unfold_m_in E :=
  unfold with_TemporaryDirectory, try_except_else, bind, perform, first_item,
    ret, raise in E.

(* The scrutinee that blocks the evaluation of [t]; fails when [t] is a value. *)
Ltac blocked_on t :=
  match t with
  | (let (_, _) := ?m in _) => blocked_on m
  | (match ?r with Ok _ => _ | Raise _ => _ end) => blocked_on r
  | (match ?l with nil => _ | cons _ _ => _ end) => blocked_on l
  | (match ?o with Some _ => _ | None => _ end) => blocked_on o
  | (if ?b then _ else _) => blocked_on b
  | (let (_, _) := ?m in _) => m
  | (match ?r with Ok _ => _ | Raise _ => _ end) => r
  | (match ?l with nil => _ | cons _ _ => _ end) => l
  | (match ?o with Some _ => _ | None => _ end) => o
  | (if ?b then _ else _) => b
  end.

Ltac step_on X :=
  let s := blocked_on X in
  destruct s eqn:?; cbn [fst snd app] in *.

(* Split on every answer that the run in [E : run = _] waits for. *)
Ltac all_answers E :=
  repeat match type of E with ?X = _ => step_on X end.

(* Go through the members of an explicit list of calls. *)
Ltac members :=
  repeat match goal with
  | H : In _ (_ :: _) |- _ => destruct H as [H | H]; [try discriminate H |]
  | H : In _ [] |- _ => destruct H
  | H : In _ (_ ++ _) |- _ => apply in_app_or in H; destruct H as [H | H]
  end.

Ltac use_answers :=
  repeat match goal with
  | H : negb _ = true |- _ => apply negb_true_iff in H
  | H : negb _ = false |- _ => apply negb_false_iff in H
  | H : ?b = true |- context [?b] => rewrite H
  | H : ?b = false |- context [?b] => rewrite H
  | H : ?r = Ok _ |- context [?r] => rewrite H
  | H : ?r = Raise _ |- context [?r] => rewrite H
  end.

(** ** The executor, call by call *)

Section Executor.

Variable w : World.
Variables (pr_number : Z).
Variables (merge_commit_sha target_branch repo_slug repo_remote token : string).

Let ex := backport_pr_sync w pr_number merge_commit_sha target_branch repo_slug
            repo_remote token.
Let name := backport_branch_name target_branch merge_commit_sha pr_number.

(** What a successful run did, call by call. *)
Lemma backport_pr_sync_ok_inv b tr :
  ex = (Ok b, tr) ->
  b = name /\
  exists tmp_dir cherry tip parent0 others mb index tree_id,
    revparse_single w merge_commit_sha = Ok cherry /\
    branches_getitem w ("origin/" ++ target_branch) = Ok tip /\
    parents cherry = parent0 :: others /\
    merge_base w (oid cherry) (oid tip) = Ok mb /\
    merge_trees w (tree parent0) (mkBranch ("refs/heads/" ++ name) (oid tip))
      cherry = Ok index /\
    write_tree w index = Ok tree_id /\
    remote_push w ["HEAD:refs/heads/" ++ name] = Ok tt /\
    tr = [TemporaryDirectory
            (PyStr.replace_char "/" "--" repo_slug ++ "---" ++ target_branch
             ++ "---")
            ("---PR-" ++ PyStr.of_int pr_number ++ ".git");
          CloneRepository repo_remote tmp_dir true token;
          AddFetch "origin"
            ("+refs/pull/" ++ PyStr.of_int pr_number
             ++ "/merge:refs/merge/origin/" ++ PyStr.of_int pr_number);
          AddFetch "origin"
            ("+refs/pull/" ++ PyStr.of_int pr_number
             ++ "/head:refs/pull/origin/" ++ PyStr.of_int pr_number);
          Fetch token;
          AddPush "origin" (target_branch ++ ":" ++ name);
          RevparseSingle merge_commit_sha;
          BranchLookup ("origin/" ++ target_branch);
          BranchCreate name tip;
          MergeBase (oid cherry) (oid tip);
          MergeTrees (tree parent0)
            (mkBranch ("refs/heads/" ++ name) (oid tip)) cherry;
          WriteTree index;
          CreateCommit ("refs/heads/" ++ name) (author cherry) bot_signature
            (message cherry) tree_id [oid tip];
          Push ["HEAD:refs/heads/" ++ name] token;
          TemporaryDirectoryCleanup].
Proof.
  subst ex. unfold backport_pr_sync. fold name. generalize name as nm; intros nm.
  unfold_m. cbn [fst snd app].
  intros E. all_answers E; try discriminate E. injection E as <- <-.
  split; [reflexivity|].
  repeat match goal with u : unit |- _ => destruct u end.
  repeat eexists; eassumption.
Qed.

Lemma backport_pr_sync_push refspecs tk :
  In (Push refspecs tk) (snd ex) ->
  fst ex =
  match remote_push w ["HEAD:refs/heads/" ++ name] with
  | Ok _ => Ok name
  | Raise e =>
      if isinstance e GitError
         && String.eqb (exn_str e) push_forbidden_message
      then Raise (push_permission_error repo_remote)
      else Raise e
  end.
Proof.
  subst ex. destruct (backport_pr_sync _ _ _ _ _ _ _) as [r tr] eqn:E.
  unfold backport_pr_sync in E. fold name in E. revert E.
  generalize name as nm; intros nm E.
  unfold_m_in E. cbn [fst snd app] in E.
  all_answers E; injection E as <- <-; cbn [fst snd]; intros H; members;
    use_answers; cbn [andb]; reflexivity.
Qed.


(** The executor talks to git only. *)
Lemma backport_pr_sync_git_only c :
  In c (snd ex) -> is_api_call c = false.
Proof.
  subst ex. destruct (backport_pr_sync _ _ _ _ _ _ _) as [r tr] eqn:E.
  unfold backport_pr_sync in E. revert E.
  generalize name as nm; intros nm E.
  unfold_m_in E. cbn [fst snd app] in E.
  all_answers E; injection E as <- <-; cbn [fst snd]; intros H;
    repeat (destruct H as [<- | H]; [reflexivity|]); destruct H.
Qed.

End Executor.

(** ** Exceptions and lists of calls *)


Lemma filter_nil_of {A} (f g : A -> bool) (l : list A) :
  (forall c, In c l -> g c = false) ->
  (forall c, f c = true -> g c = true) ->
  filter f l = [].
Proof.
  intros Hg Hf. induction l as [|c l IH]; [reflexivity|]. simpl.
  destruct (f c) eqn:Fc.
  - apply Hf in Fc. rewrite (Hg c) in Fc by now left. discriminate.
  - apply IH. intros c' Hc'. apply Hg. now right.
Qed.

(** No call of a given kind among the executor's, when every call of that
    kind is a call to the API. *)
Lemma no_api_call_in_executor (f : call -> bool) w pr_number pr_merge_commit
  target_branch repo_slug git_url tok r tr :
  backport_pr_sync w pr_number pr_merge_commit target_branch repo_slug
    git_url tok = (r, tr) ->
  (forall c, f c = true -> is_api_call c = true) ->
  filter f tr = [].
Proof.
  intros E Hf. apply filter_nil_of with (g := is_api_call); [|exact Hf].
  intros c Hc. eapply backport_pr_sync_git_only. rewrite E. exact Hc.
Qed.

Lemma update_is_api c : is_update c = true -> is_api_call c = true.
Proof. now destruct c. Qed.

Lemma terminal_update_is_api c : is_terminal_update c = true -> is_api_call c = true.
Proof. now destruct c. Qed.

Lemma success_update_is_api c : is_success_update c = true -> is_api_call c = true.
Proof. now destruct c. Qed.

Lemma pull_request_is_api c : creates_pull_request c = true -> is_api_call c = true.
Proof. now destruct c. Qed.

Lemma check_run_is_api c : creates_check_run c = true -> is_api_call c = true.
Proof. now destruct c. Qed.

(* Case analysis on a run of the orchestrator kept in [R : run = p]. *)
Ltac run_cases R :=
  unfold process_pr_backport_labels in R; unfold_m_in R;
  cbn [fst snd app] in R; all_answers R.

(* What the executor's calls contribute to a filtered list. *)
Ltac executor_calls :=
  repeat match goal with
  | E : backport_pr_sync _ _ _ _ _ _ _ = (_, ?tr) |- context [filter ?f ?tr] =>
      first
        [ rewrite (no_api_call_in_executor f _ _ _ _ _ _ _ _ _ E update_is_api)
        | rewrite (no_api_call_in_executor f _ _ _ _ _ _ _ _ _ E terminal_update_is_api)
        | rewrite (no_api_call_in_executor f _ _ _ _ _ _ _ _ _ E success_update_is_api)
        | rewrite (no_api_call_in_executor f _ _ _ _ _ _ _ _ _ E pull_request_is_api)
        | rewrite (no_api_call_in_executor f _ _ _ _ _ _ _ _ _ E check_run_is_api) ]
  end.

Ltac read_calls :=
  cbn [filter]; rewrite ?filter_app; executor_calls; cbn.

(** The two tests of a refused pull request (lines 389 and 414-419), as one
    condition: the error is absorbed when it is a [ValidationError], or a
    [BadRequest] with status 403 and the text of a missing permission. *)
Lemma pull_request_refusal err :
  (if isinstance err ValidationError then true
   else if isinstance err BadRequest then
     negb (status_code_ne err FORBIDDEN
           || negb (String.eqb (exn_str err) not_accessible_message))
   else false)
  = isinstance err ValidationError
    || (isinstance err BadRequest
        && match exn_status_code err with
           | Some code => code =? 403
           | None => false
           end
        && String.eqb (exn_str err) "Resource not accessible by integration").
Proof.
  unfold status_code_ne, FORBIDDEN, not_accessible_message.
  destruct (isinstance err ValidationError); [reflexivity|].
  destruct (isinstance err BadRequest); [|reflexivity].
  destruct (exn_status_code err) as [code|]; [|reflexivity].
  destruct (code =? 403); [|reflexivity].
  now destruct (String.eqb (exn_str err) _).
Qed.

(* Use the answers of the API that are known, whatever the form in which
   the goal writes the request. *)
Ltac answer_in_goal :=
  repeat match goal with
  | H : gh_post ?w ?u ?d = _ |- context [gh_post ?w ?u' ?d'] =>
      change (gh_post w u' d') with (gh_post w u d); rewrite H
  | H : gh_patch ?w ?u ?d = _ |- context [gh_patch ?w ?u' ?d'] =>
      change (gh_patch w u' d') with (gh_patch w u d); rewrite H
  end.

(* Read the payloads written out in a statement as the orchestrator builds
   them. *)
Ltac fold_payloads_of w repo_slug target_branch pr_head_ref :=
  fold (check_runs_uri repo_slug) in *;
  fold (check_run_name_of target_branch) in *;
  fold (queued_data (check_run_name_of target_branch) pr_head_ref
          (utcnow_isoformat w 0 ++ "Z")) in *;
  fold (in_progress_data (check_run_name_of target_branch)) in *.

(** ** One request through the orchestrator *)

Section Orchestrator.

Variable w : World.
Variables (pr_number : Z).
Variables (pr_title : string) (pr_body : option string).
Variables (pr_base_ref pr_head_ref pr_merge_commit target_branch pr_api_url
           repo_slug git_url : string).

Ltac fold_payloads := fold_payloads_of w repo_slug target_branch pr_head_ref.

(** C10: when the creation of the check run fails with an error that is not
    an HTTP 403 saying [Resource not accessible by integration], the
    orchestrator raises that error and has made no other call: no token is
    fetched, no git work is done, no pull request is asked for. *)
Theorem check_run_error_propagates e :
  gh_post w (check_runs_uri repo_slug)
    (queued_data (check_run_name_of target_branch) pr_head_ref
       (utcnow_isoformat w 0 ++ "Z")) = Raise e ->
  ~ (exn_status_code e = Some FORBIDDEN /\ exn_str e = not_accessible_message) ->
  process_pr_backport_labels w pr_number pr_title pr_body pr_base_ref
    pr_head_ref pr_merge_commit target_branch pr_api_url repo_slug git_url =
  (Raise e,
   [ApiPost (check_runs_uri repo_slug) (Some "antiope")
      (queued_data (check_run_name_of target_branch) pr_head_ref
         (utcnow_isoformat w 0 ++ "Z"))]).
Proof.
  intros Hpost Hother.
  unfold process_pr_backport_labels. unfold_m. rewrite Hpost.
  cbn [fst snd app].
  destruct (isinstance e BadRequest); [|reflexivity].
  destruct (status_code_ne e FORBIDDEN) eqn:Hs; [reflexivity|].
  destruct (String.eqb_spec (exn_str e) not_accessible_message) as [Hm|Hm];
    [|reflexivity].
  exfalso. apply Hother. split; [|exact Hm].
  unfold status_code_ne in Hs. destruct (exn_status_code e) as [c|]; [|discriminate].
  apply negb_false_iff, Z.eqb_eq in Hs. now subst c.
Qed.

(** C4: when the push is attempted and the remote rejects it with pygit2's
    [GitError] [unexpected http status code: 403], the executor fails with a
    [PermissionError] and the orchestrator creates no pull request; a push
    that fails in any other way makes the executor fail with that very
    error. *)
Theorem push_rejection_is_classified tok e :
  get_token w = Ok tok ->
  let ex := backport_pr_sync w pr_number pr_merge_commit target_branch
              repo_slug git_url tok in
  let run := process_pr_backport_labels w pr_number pr_title pr_body
               pr_base_ref pr_head_ref pr_merge_commit target_branch
               pr_api_url repo_slug git_url in
  let refspec :=
    "HEAD:refs/heads/"
    ++ backport_branch_name target_branch pr_merge_commit pr_number in
  In (Push [refspec] tok) (snd ex) ->
  remote_push w [refspec] = Raise e ->
  (isinstance e GitError = true /\ exn_str e = push_forbidden_message ->
   fst ex = Raise (push_permission_error git_url) /\
   isinstance (push_permission_error git_url) PermissionError = true /\
   filter creates_pull_request (snd run) = []) /\
  (~ (isinstance e GitError = true /\ exn_str e = push_forbidden_message) ->
   fst ex = Raise e).
Proof.
  intros Htok ex run refspec Hin Hpush. subst ex run refspec.
  pose proof (backport_pr_sync_push _ _ _ _ _ _ _ _ _ Hin) as Hfst.
  rewrite Hpush in Hfst. split.
  - intros [Hgit Hmsg]. rewrite Hgit, Hmsg, String.eqb_refl in Hfst.
    cbn [andb] in Hfst. split; [exact Hfst|]. split; [reflexivity|].
    destruct (backport_pr_sync _ _ _ _ _ _ _) as [r tr] eqn:E.
    cbn [fst] in Hfst. subst r.
    remember (process_pr_backport_labels _ _ _ _ _ _ _ _ _ _ _) as p eqn:R.
    symmetry in R. unfold process_pr_backport_labels in R. unfold_m_in R.
    rewrite Htok in R. cbn [fst snd app] in R. rewrite E in R.
    cbn [fst snd app] in R. all_answers R; subst p; cbn [fst snd].
    all: read_calls; reflexivity.
  - intros Hnot. rewrite Hfst.
    destruct (isinstance e GitError); [|reflexivity].
    destruct (String.eqb_spec (exn_str e) push_forbidden_message) as [Hm|Hm];
      [|reflexivity].
    exfalso. apply Hnot. now split.
Qed.

(** C5 (as amended): when the creation of the check run is denied (a
    [BadRequest] with status 403 and the text
    [Resource not accessible by integration]), the orchestrator makes no
    status call at all, and goes on: it asks for the token and runs the
    executor.  The denial itself is never the outcome.  The request ends in
    one of three ways: the branch is pushed and the pull request is asked
    for (a refusal of the pull request as invalid or for lack of scope is
    absorbed); or the token request or the executor fails with a
    [LookupError] or a [PermissionError], which is absorbed; or one of them,
    or the pull-request creation, fails in another way, and that error is
    raised, as it is when reporting is enabled. *)
Theorem denied_check_run_disables_reporting e :
  gh_post w ("/repos/" ++ repo_slug ++ "/check-runs")
    (JObj [("name", JStr ("Backport to " ++ target_branch));
           ("head_sha", JStr pr_head_ref);
           ("status", JStr "queued");
           ("started_at", JStr (utcnow_isoformat w 0 ++ "Z"))])
  = Raise e ->
  isinstance e BadRequest = true ->
  exn_status_code e = Some 403 ->
  exn_str e = "Resource not accessible by integration" ->
  let run := process_pr_backport_labels w pr_number pr_title pr_body
               pr_base_ref pr_head_ref pr_merge_commit target_branch
               pr_api_url repo_slug git_url in
  let backport_pr_branch :=
    "patchback/backports/" ++ target_branch ++ "/" ++ pr_merge_commit
    ++ "/pr" ++ PyStr.of_int pr_number in
  let pr_data :=
    JObj [("title",
           JStr ("[PR #" ++ PyStr.of_int pr_number ++ "/"
                 ++ PyStr.slice_to 8 pr_merge_commit ++ " backport]["
                 ++ target_branch ++ "] " ++ pr_title));
          ("head", JStr backport_pr_branch);
          ("base", JStr target_branch);
          ("body",
           JStr ("**This is a backport of PR #" ++ PyStr.of_int pr_number
                 ++ " as merged into " ++ pr_base_ref ++ " ("
                 ++ pr_merge_commit ++ ").**" ++ LF ++ LF
                 ++ PyStr.of_optional pr_body));
          ("maintainer_can_modify", JBool true);
          ("draft", JBool false)] in
  let classified err :=
    isinstance err LookupError || isinstance err PermissionError in
  let refused err :=
    isinstance err ValidationError
    || (isinstance err BadRequest
        && match exn_status_code err with
           | Some code => code =? 403
           | None => false
           end
        && String.eqb (exn_str err) "Resource not accessible by integration")
  in
  filter is_update (snd run) = [] /\
  exists rest,
    snd run =
      ApiPost ("/repos/" ++ repo_slug ++ "/check-runs") (Some "antiope")
        (JObj [("name", JStr ("Backport to " ++ target_branch));
               ("head_sha", JStr pr_head_ref);
               ("status", JStr "queued");
               ("started_at", JStr (utcnow_isoformat w 0 ++ "Z"))])
      :: GetToken :: rest /\
    match get_token w with
    | Raise err =>
        rest = [] /\
        fst run = if classified err then Ok tt else Raise err
    | Ok tok =>
        let ex := backport_pr_sync w pr_number pr_merge_commit target_branch
                    repo_slug git_url tok in
        match fst ex with
        | Raise err =>
            rest = snd ex /\
            fst run = if classified err then Ok tt else Raise err
        | Ok _ =>
            In (Push ["HEAD:refs/heads/" ++ backport_pr_branch] tok)
              (snd ex) /\
            remote_push w ["HEAD:refs/heads/" ++ backport_pr_branch]
              = Ok tt /\
            rest = (snd ex ++ [ApiPost pr_api_url None pr_data])%list /\
            fst run =
              match gh_post w pr_api_url pr_data with
              | Ok _ => Ok tt
              | Raise err => if refused err then Ok tt else Raise err
              end
        end
    end.
Proof.
  intros Hpost Hbad Hcode Hmsg run name pr_data classified refused.
  subst run name pr_data classified refused. fold_payloads.
  assert (Hs : status_code_ne e FORBIDDEN = false).
  { unfold status_code_ne. now rewrite Hcode. }
  assert (Hm : String.eqb (exn_str e) not_accessible_message = true).
  { now rewrite Hmsg. }
  remember (process_pr_backport_labels _ _ _ _ _ _ _ _ _ _ _) as p eqn:R.
  symmetry in R. unfold process_pr_backport_labels in R. unfold_m_in R.
  rewrite Hpost in R. cbn [fst snd app] in R.
  rewrite Hbad, Hs, Hm in R. cbn [fst snd app orb negb] in R.
  all_answers R; subst p; cbn [fst snd]; rewrite ?app_nil_r.
  all: split; [read_calls; reflexivity|].
  all: eexists; split; [reflexivity|].
  all: try match goal with
       | E : backport_pr_sync _ _ _ _ _ _ _ = (Ok _, _) |- _ =>
           destruct (backport_pr_sync_ok_inv _ _ _ _ _ _ _ _ _ E)
             as (-> & tmp & cherry & tip & p0 & ps & mb & ix & tid
                 & _ & _ & _ & _ & _ & _ & Hpush & Htr);
           split; [rewrite Htr; cbn; tauto|];
           split; [exact Hpush|]
       end.
  all: split; [reflexivity|].
  all: answer_in_goal; rewrite <- ?pull_request_refusal.
  all: use_answers; reflexivity.
Qed.

(** C7 (as amended): when the branch has been pushed and the update of the
    check run that follows the push is accepted (or reporting is disabled),
    the orchestrator asks for exactly one pull request: its title is
    [[PR #<pr_number>/<first 8 characters of the commit> backport][<target_branch>] <title>],
    its body is the note naming the original pull request, its base branch
    and the merge commit, then an empty line and the original body (the text
    [None] when the pull request has no description), its base is the target
    branch, its head the backport branch, maintainers may modify it, and it
    is not a draft.  When that update fails, its error is raised and no pull
    request is asked for. *)
Theorem pull_request_is_requested refspecs tk :
  let run := process_pr_backport_labels w pr_number pr_title pr_body
               pr_base_ref pr_head_ref pr_merge_commit target_branch
               pr_api_url repo_slug git_url in
  let backport_pr_branch :=
    "patchback/backports/" ++ target_branch ++ "/" ++ pr_merge_commit
    ++ "/pr" ++ PyStr.of_int pr_number in
  let pr_data :=
    JObj [("title",
           JStr ("[PR #" ++ PyStr.of_int pr_number ++ "/"
                 ++ PyStr.slice_to 8 pr_merge_commit ++ " backport]["
                 ++ target_branch ++ "] " ++ pr_title));
          ("head", JStr backport_pr_branch);
          ("base", JStr target_branch);
          ("body",
           JStr ("**This is a backport of PR #" ++ PyStr.of_int pr_number
                 ++ " as merged into " ++ pr_base_ref ++ " ("
                 ++ pr_merge_commit ++ ").**" ++ LF ++ LF
                 ++ PyStr.of_optional pr_body));
          ("maintainer_can_modify", JBool true);
          ("draft", JBool false)] in
  let progress :=
    JObj [("name", JStr ("Backport to " ++ target_branch));
          ("status", JStr "in_progress");
          ("output",
           JObj [("title",
                  JStr ("Backport to " ++ target_branch
                        ++ ": cherry-pick succeeded"));
                 ("text",
                  JStr "PR branch created, proceeding with making a PR.");
                 ("summary",
                  JStr ("Backport PR branch: `" ++ backport_pr_branch))])] in
  In (Push refspecs tk) (snd run) ->
  remote_push w ["HEAD:refs/heads/" ++ backport_pr_branch] = Ok tt ->
  match
    gh_post w ("/repos/" ++ repo_slug ++ "/check-runs")
      (JObj [("name", JStr ("Backport to " ++ target_branch));
             ("head_sha", JStr pr_head_ref);
             ("status", JStr "queued");
             ("started_at", JStr (utcnow_isoformat w 0 ++ "Z"))])
  with
  | Ok resp =>
      match
        gh_patch w
          (("/repos/" ++ repo_slug ++ "/check-runs") ++ "/"
           ++ PyStr.of_int (resp_id resp)) progress
      with
      | Ok _ =>
          filter creates_pull_request (snd run)
          = [ApiPost pr_api_url None pr_data]
      | Raise err =>
          fst run = Raise err /\ filter creates_pull_request (snd run) = []
      end
  | Raise _ =>
      filter creates_pull_request (snd run)
      = [ApiPost pr_api_url None pr_data]
  end.
Proof.
  intros run backport_pr_branch pr_data progress Hin Hpush.
  subst run backport_pr_branch pr_data progress.
  fold (backport_branch_name target_branch pr_merge_commit pr_number) in *.
  fold_payloads. revert Hin.
  remember (process_pr_backport_labels _ _ _ _ _ _ _ _ _ _ _) as p eqn:R.
  symmetry in R. run_cases R; subst p; cbn [fst snd]; intros Hin.
  all: members.
  all: match goal with
       | E : backport_pr_sync ?a ?n ?s ?t ?g ?u ?k = (_, ?l),
         H : In (Push ?rs ?tk) ?l |- _ =>
           let P := fresh "P" in
           pose proof (backport_pr_sync_push a n s t g u k rs tk) as P;
           rewrite E, Hpush in P; cbn [fst snd] in P; specialize (P H);
           first [ discriminate P | injection P as -> ]
       end.
  all: answer_in_goal.
  all: try split; try reflexivity; read_calls; reflexivity.
Qed.


(** A failure of the executor that the orchestrator classifies does not leave
    the orchestrator: the request returns normally. *)
Lemma classified_executor_failure_is_absorbed tok e :
  get_token w = Ok tok ->
  fst (backport_pr_sync w pr_number pr_merge_commit target_branch repo_slug
         git_url tok) = Raise e ->
  isinstance e LookupError || isinstance e PermissionError = true ->
  (forall uri data, gh_patch w uri data = Ok tt) ->
  match gh_post w (check_runs_uri repo_slug)
          (queued_data (check_run_name_of target_branch) pr_head_ref
             (utcnow_isoformat w 0 ++ "Z")) with
  | Ok _ => True
  | Raise err =>
      isinstance err BadRequest = true /\
      status_code_ne err FORBIDDEN = false /\
      exn_str err = not_accessible_message
  end ->
  fst (process_pr_backport_labels w pr_number pr_title pr_body pr_base_ref
         pr_head_ref pr_merge_commit target_branch pr_api_url repo_slug
         git_url) = Ok tt.
Proof.
  intros Htok Hex Hclass Hpatch Hpost.
  destruct (backport_pr_sync _ _ _ _ _ _ _) as [r tr] eqn:E.
  cbn [fst] in Hex. subst r. revert Hpost.
  remember (process_pr_backport_labels _ _ _ _ _ _ _ _ _ _ _) as p eqn:R.
  symmetry in R. unfold process_pr_backport_labels in R. unfold_m_in R.
  rewrite Htok in R. cbn [fst snd app] in R. rewrite E in R.
  cbn [fst snd app] in R. all_answers R; subst p; cbn [fst snd]; intros Hpost.
  all: try match goal with
       | H : gh_patch _ _ _ = Raise _ |- _ =>
           rewrite Hpatch in H; discriminate H
       end.
  all: try apply Hpatch; try reflexivity.
  all: try (destruct Hpost as (Hb & Hs & Hm);
            rewrite ?Hs, ?Hm, ?String.eqb_refl in *; cbn [orb negb] in *;
            congruence).
  all: try (destruct (isinstance e LookupError);
            destruct (isinstance e PermissionError); discriminate).
Qed.

End Orchestrator.

(** ** The pushed branch and the commit on it *)

(** C2 (as amended): the branch a successful run creates and pushes is named
    [patchback/backports/<target_branch>/<merge_commit_sha>/pr<pr_number>];
    the prefix [patchback/] is part of the name. *)
Theorem backport_branch_is_named w pr_number merge_commit_sha target_branch
  repo_slug repo_remote token b tr :
  backport_pr_sync w pr_number merge_commit_sha target_branch repo_slug
    repo_remote token = (Ok b, tr) ->
  b = "patchback/backports/" ++ target_branch ++ "/" ++ merge_commit_sha
      ++ "/pr" ++ PyStr.of_int pr_number /\
  (exists tip, In (BranchCreate b tip) tr) /\
  In (Push ["HEAD:refs/heads/" ++ b] token) tr.
Proof.
  intros E.
  destruct (backport_pr_sync_ok_inv _ _ _ _ _ _ _ _ _ E)
    as (-> & tmp & cherry & tip & p0 & ps & mb & ix & tid
        & _ & _ & _ & _ & _ & _ & _ & ->).
  split; [reflexivity|]. split.
  - exists tip. cbn. tauto.
  - cbn. tauto.
Qed.

(** C3: in a successful run the three-way merge takes the tree of the
    cherry's first parent as its base, whatever [merge_base] computed, and
    the one commit created on the backport branch has the cherry's author and
    message, the bot as committer, the merged tree, and the tip of the target
    branch's remote-tracking ref as its only parent. *)
Theorem cherry_pick_commit w pr_number merge_commit_sha target_branch
  repo_slug repo_remote token b tr :
  backport_pr_sync w pr_number merge_commit_sha target_branch repo_slug
    repo_remote token = (Ok b, tr) ->
  exists cherry tip parent0 others computed_base index tree_id,
    revparse_single w merge_commit_sha = Ok cherry /\
    branches_getitem w ("origin/" ++ target_branch) = Ok tip /\
    parents cherry = parent0 :: others /\
    merge_base w (oid cherry) (oid tip) = Ok computed_base /\
    merge_trees w (tree parent0) (mkBranch ("refs/heads/" ++ b) (oid tip))
      cherry = Ok index /\
    write_tree w index = Ok tree_id /\
    filter is_merge_trees tr =
      [MergeTrees (tree parent0) (mkBranch ("refs/heads/" ++ b) (oid tip))
         cherry] /\
    filter is_create_commit tr =
      [CreateCommit ("refs/heads/" ++ b) (author cherry)
         (mkSignature "Patchback" "patchback@sanitizers.bot")
         (message cherry) tree_id [oid tip]].
Proof.
  intros E.
  destruct (backport_pr_sync_ok_inv _ _ _ _ _ _ _ _ _ E)
    as (-> & tmp & cherry & tip & p0 & ps & mb & ix & tid
        & Hc & Ht & Hp & Hb & Hm & Hw & _ & ->).
  exists cherry, tip, p0, ps, mb, ix, tid.
  repeat (split; [assumption|]). split; reflexivity.
Qed.

(** The failure the executor classifies itself: a [KeyError] of the clone
    becomes [LookupError('Failed to check out branch <target_branch>')]. *)
Lemma clone_key_error_is_lookup_error w pr_number merge_commit_sha
  target_branch repo_slug repo_remote token tmp_dir e :
  mkdtemp w
    (PyStr.replace_char "/" "--" repo_slug ++ "---" ++ target_branch ++ "---")
    ("---PR-" ++ PyStr.of_int pr_number ++ ".git") = Ok tmp_dir ->
  clone_repository w repo_remote tmp_dir = Raise e ->
  isinstance e KeyError = true ->
  fst (backport_pr_sync w pr_number merge_commit_sha target_branch repo_slug
         repo_remote token)
  = Raise (mkExn LookupError ("Failed to check out branch " ++ target_branch)
             None).
Proof.
  intros Htmp Hclone Hkey. unfold backport_pr_sync. unfold_m.
  rewrite Htmp. cbn [fst snd app]. rewrite Hclone, Hkey. reflexivity.
Qed.

(** C9: the name is a function of its inputs, and two triples that give the
    same name are equal.  The commit ids contain no [/]: they are
    hexadecimal.  The target branches may. *)
Theorem backport_branch_name_injective t1 s1 n1 t2 s2 n2 :
  PyStr.char_in "/" s1 = false ->
  PyStr.char_in "/" s2 = false ->
  backport_branch_name t1 s1 n1 = backport_branch_name t2 s2 n2 ->
  t1 = t2 /\ s1 = s2 /\ n1 = n2.
Proof.
  intros H1 H2 E. unfold backport_branch_name in E.
  apply append_inv_head in E.
  change (t1 ++ String "/" (s1 ++ String "/" ("pr" ++ PyStr.of_int n1))
          = t2 ++ String "/" (s2 ++ String "/" ("pr" ++ PyStr.of_int n2))) in E.
  assert (N : forall n, PyStr.char_in "/" ("pr" ++ PyStr.of_int n) = false).
  { intros n. cbn. apply of_int_no_slash. }
  assert (E' : (t1 ++ String "/" s1) ++ String "/" ("pr" ++ PyStr.of_int n1)
               = (t2 ++ String "/" s2) ++ String "/" ("pr" ++ PyStr.of_int n2)).
  { rewrite !append_assoc. exact E. }
  destruct (append_last_sep_inj _ _ _ _ _ (N n1) (N n2) E') as [Ets En].
  destruct (append_last_sep_inj _ _ _ _ _ H1 H2 Ets) as [-> ->].
  injection En as En. apply of_int_inj in En. now subst.
Qed.

(** ** The webhook handlers *)

(** An event about a pull request that is not merged is dropped: no call. *)
Lemma unmerged_pr_is_ignored ws w number pull_request label repository :
  merged pull_request = false ->
  on_merge_of_labeled_pr ws number pull_request repository = (Ok tt, []) /\
  on_label_added_to_merged_pr w number pull_request (label, repository)
  = (Ok tt, []).
Proof.
  intros H. unfold on_merge_of_labeled_pr, on_label_added_to_merged_pr,
    ensure_pr_merged. now rewrite H.
Qed.

(** A backport label added to a merged pull request makes one request. *)
Lemma label_added_makes_one_request w number pull_request label repository :
  merged pull_request = true ->
  PyStr.startswith (label_name label) BACKPORT_LABEL_PREFIX = true ->
  on_label_added_to_merged_pr w number pull_request (label, repository)
  = process_pr_backport_labels w number (title pull_request)
      (body pull_request) (base_ref pull_request) (head_ref pull_request)
      (merge_commit_sha pull_request)
      (PyStr.slice_from BACKPORT_LABEL_LEN (label_name label))
      (pulls_url repository) (full_name repository) (clone_url repository).
Proof.
  intros Hm Hl. unfold on_label_added_to_merged_pr, ensure_pr_merged.
  now rewrite Hm, Hl.
Qed.

(** ** The fan-out of the merge handler *)

Section ForEach.

Context {A : Type} (body : nat -> A -> M unit).

Lemma for_each_all_ok xs : forall k,
  (forall j x, nth_error xs j = Some x -> fst (body (k + j)%nat x) = Ok tt) ->
  for_each k xs body = (Ok tt, calls_of_each k xs body).
Proof.
  induction xs as [|x xs IH]; intros k H; [reflexivity|].
  cbn [for_each calls_of_each]. unfold bind.
  pose proof (H 0%nat x eq_refl) as H0. rewrite Nat.add_0_r in H0.
  destruct (body k x) as [r t]. cbn [fst snd] in *. subst r.
  rewrite IH; [reflexivity|].
  intros j y Hj. replace (S k + j)%nat with (k + S j)%nat by lia.
  now apply (H (S j)).
Qed.

Lemma for_each_reaches xs : forall k j x,
  nth_error xs j = Some x ->
  (forall i y, (i < j)%nat -> nth_error xs i = Some y ->
               fst (body (k + i)%nat y) = Ok tt) ->
  exists rest,
    snd (for_each k xs body) =
    (calls_of_each k (firstn j xs) body ++ snd (body (k + j)%nat x) ++ rest)%list.
Proof.
  induction xs as [|a xs IH]; intros k j x Hj Hbefore.
  - now destruct j.
  - cbn [for_each]. unfold bind. destruct j as [|j].
    + injection Hj as ->. rewrite Nat.add_0_r. cbn [firstn calls_of_each app].
      destruct (body k x) as [[u|e] t]; cbn [snd].
      * destruct (for_each (S k) xs body) as [r t']. now exists t'.
      * exists []. now rewrite app_nil_r.
    + pose proof (Hbefore 0%nat a (Nat.lt_0_succ j) eq_refl) as H0.
      rewrite Nat.add_0_r in H0.
      destruct (IH (S k) j x Hj) as [rest Hrest].
      { intros i y Hi Hy. replace (S k + i)%nat with (k + S i)%nat by lia.
        apply (Hbefore (S i)); [lia | exact Hy]. }
      cbn [firstn calls_of_each].
      replace (k + S j)%nat with (S k + j)%nat by lia.
      destruct (body k a) as [r t]. cbn [fst snd] in *. subst r.
      destruct (for_each (S k) xs body) as [r' t']. cbn [snd] in *.
      exists rest. now rewrite Hrest, app_assoc.
Qed.

Lemma for_each_stops xs : forall k j x e,
  nth_error xs j = Some x ->
  (forall i y, (i < j)%nat -> nth_error xs i = Some y ->
               fst (body (k + i)%nat y) = Ok tt) ->
  fst (body (k + j)%nat x) = Raise e ->
  for_each k xs body =
  (Raise e, (calls_of_each k (firstn j xs) body ++ snd (body (k + j)%nat x))%list).
Proof.
  induction xs as [|a xs IH]; intros k j x e Hj Hbefore Hraise.
  - now destruct j.
  - cbn [for_each]. unfold bind. destruct j as [|j].
    + injection Hj as ->. rewrite Nat.add_0_r in *.
      cbn [firstn calls_of_each app].
      destruct (body k x) as [r t]. cbn [fst snd] in *. now subst r.
    + pose proof (Hbefore 0%nat a (Nat.lt_0_succ j) eq_refl) as H0.
      rewrite Nat.add_0_r in H0.
      replace (k + S j)%nat with (S k + j)%nat in * by lia.
      rewrite (IH (S k) j x e Hj); [| |exact Hraise].
      * cbn [firstn calls_of_each].
        destruct (body k a) as [r t]. cbn [fst snd] in *. subst r.
        now rewrite app_assoc.
      * intros i y Hi Hy. replace (S k + i)%nat with (k + S i)%nat by lia.
        apply (Hbefore (S i)); [lia | exact Hy].
Qed.

End ForEach.

(** C8 (as amended): for a merged pull request the handler makes one request
    per [backport-] label, in the order of the labels, for the label's name
    without the prefix.  A request is carried out, as it would be alone,
    whenever none of the requests before it raised; so a failure the
    orchestrator absorbs leaves the others untouched.  When no request
    raises, the calls of the handler are those of the requests, one after the
    other.  A request that raises ends the handler: the ones after it are not
    made. *)
Theorem fan_out_of_merged_pr ws number pull_request repository :
  merged pull_request = true ->
  let targets :=
    map (PyStr.slice_from BACKPORT_LABEL_LEN)
      (filter (fun label => PyStr.startswith label BACKPORT_LABEL_PREFIX)
         (map label_name (labels pull_request))) in
  let request k target_branch :=
    process_pr_backport_labels (ws k) number (title pull_request)
      (body pull_request) (base_ref pull_request) (head_ref pull_request)
      (merge_commit_sha pull_request) target_branch (pulls_url repository)
      (full_name repository) (clone_url repository) in
  let run := on_merge_of_labeled_pr ws number pull_request repository in
  (forall k target_branch,
     nth_error targets k = Some target_branch ->
     (forall i t, (i < k)%nat -> nth_error targets i = Some t ->
                  fst (request i t) = Ok tt) ->
     exists rest,
       snd run =
       (calls_of_each 0 (firstn k targets) request
        ++ snd (request k target_branch) ++ rest)%list) /\
  ((forall k t, nth_error targets k = Some t -> fst (request k t) = Ok tt) ->
   run = (Ok tt, calls_of_each 0 targets request)) /\
  (forall k target_branch e,
     nth_error targets k = Some target_branch ->
     (forall i t, (i < k)%nat -> nth_error targets i = Some t ->
                  fst (request i t) = Ok tt) ->
     fst (request k target_branch) = Raise e ->
     run = (Raise e,
            (calls_of_each 0 (firstn k targets) request
             ++ snd (request k target_branch))%list)).
Proof.
  intros Hmerged targets request run.
  assert (Hrun : run = for_each 0 targets request).
  { subst run. unfold on_merge_of_labeled_pr, ensure_pr_merged.
    rewrite Hmerged. cbn [negb].
    change (target_branches_of pull_request) with targets.
    now destruct targets. }
  rewrite Hrun. split; [|split].
  - intros k t Hk Hbefore.
    exact (for_each_reaches request targets 0 k t Hk Hbefore).
  - intros Hall. now apply for_each_all_ok.
  - intros k t e Hk Hbefore Hraise.
    exact (for_each_stops request targets 0 k t e Hk Hbefore Hraise).
Qed.

(** ** The properties at concrete requests *)




Lemma pushed_branch_is_not_the_spec_name :
  fst (Runs.executor Sample.happy "v1.2")
  <> Ok ("backports/v1.2/" ++ Sample.sha ++ "/pr42").
Proof. vm_compute. discriminate. Qed.

Lemma backport_branch_is_named_witness :
  fst (Runs.executor Sample.happy "v1.2")
    = Ok "patchback/backports/v1.2/0123456789abcdef/pr42" /\
  (exists tip,
     In (BranchCreate "patchback/backports/v1.2/0123456789abcdef/pr42" tip)
       (snd (Runs.executor Sample.happy "v1.2"))) /\
  In (Push ["HEAD:refs/heads/patchback/backports/v1.2/0123456789abcdef/pr42"]
        "ghs_token")
    (snd (Runs.executor Sample.happy "v1.2")).
Proof.
  destruct (backport_branch_is_named Sample.happy 42 Sample.sha "v1.2"
              Sample.slug Sample.remote "ghs_token"
              "patchback/backports/v1.2/0123456789abcdef/pr42"
              (snd (Runs.executor Sample.happy "v1.2")) eq_refl)
    as (_ & Hcreate & Hpush).
  split; [reflexivity|]. split; [exact Hcreate | exact Hpush].
Defined.

Lemma cherry_pick_commit_witness :
  fst (Runs.executor Sample.happy "v1.2")
    = Ok "patchback/backports/v1.2/0123456789abcdef/pr42" /\
  exists cherry tip parent0 others computed_base index tree_id,
    revparse_single Sample.happy Sample.sha = Ok cherry /\
    branches_getitem Sample.happy "origin/v1.2" = Ok tip /\
    parents cherry = parent0 :: others /\
    merge_base Sample.happy (oid cherry) (oid tip) = Ok computed_base /\
    merge_trees Sample.happy (tree parent0)
      (mkBranch "refs/heads/patchback/backports/v1.2/0123456789abcdef/pr42"
         (oid tip)) cherry = Ok index /\
    write_tree Sample.happy index = Ok tree_id /\
    filter is_merge_trees (snd (Runs.executor Sample.happy "v1.2")) =
      [MergeTrees (tree parent0)
         (mkBranch "refs/heads/patchback/backports/v1.2/0123456789abcdef/pr42"
            (oid tip)) cherry] /\
    filter is_create_commit (snd (Runs.executor Sample.happy "v1.2")) =
      [CreateCommit
         "refs/heads/patchback/backports/v1.2/0123456789abcdef/pr42"
         (author cherry) (mkSignature "Patchback" "patchback@sanitizers.bot")
         (message cherry) tree_id [oid tip]].
Proof.
  split; [reflexivity|].
  exact (cherry_pick_commit Sample.happy 42 Sample.sha "v1.2" Sample.slug
           Sample.remote "ghs_token"
           "patchback/backports/v1.2/0123456789abcdef/pr42"
           (snd (Runs.executor Sample.happy "v1.2")) eq_refl).
Defined.

Lemma push_rejection_is_classified_witness :
  remote_push Sample.push_denied
    ["HEAD:refs/heads/patchback/backports/v1.2/0123456789abcdef/pr42"]
    = Raise Sample.push_forbidden /\
  fst (Runs.executor Sample.push_denied "v1.2")
    = Raise (push_permission_error Sample.remote) /\
  isinstance (push_permission_error Sample.remote) PermissionError = true /\
  filter creates_pull_request (snd (Runs.request Sample.push_denied "v1.2"))
    = [].
Proof.
  destruct (push_rejection_is_classified Sample.push_denied 42
              "Fix the parser" (Some "Closes #4.") "main" "fix-parser" Sample.sha
              "v1.2" Sample.pulls Sample.slug Sample.remote "ghs_token"
              Sample.push_forbidden)
    as (Hdenied & _).
  - reflexivity.
  - vm_compute. tauto.
  - reflexivity.
  - split; [reflexivity|]. apply Hdenied. split; reflexivity.
Defined.

Lemma denied_check_run_disables_reporting_witness :
  gh_post Sample.checks_denied "/repos/octo/repo/check-runs"
    (JObj [("name", JStr "Backport to v1.2");
           ("head_sha", JStr "fix-parser");
           ("status", JStr "queued");
           ("started_at", JStr "2020-01-01T00:00:00Z")])
    = Raise Sample.not_accessible /\
  filter is_update (snd (Runs.request Sample.checks_denied "v1.2")) = [] /\
  In (Push ["HEAD:refs/heads/patchback/backports/v1.2/0123456789abcdef/pr42"]
        "ghs_token")
    (snd (Runs.request Sample.checks_denied "v1.2")) /\
  filter creates_pull_request (snd (Runs.request Sample.checks_denied "v1.2"))
    = [ApiPost "https://api.github.com/repos/octo/repo/pulls" None
         (JObj [("title",
                 JStr "[PR #42/01234567 backport][v1.2] Fix the parser");
                ("head",
                 JStr "patchback/backports/v1.2/0123456789abcdef/pr42");
                ("base", JStr "v1.2");
                ("body",
                 JStr ("**This is a backport of PR #42 as merged into main "
                       ++ "(0123456789abcdef).**" ++ LF ++ LF
                       ++ "Closes #4."));
                ("maintainer_can_modify", JBool true);
                ("draft", JBool false)])] /\
  fst (Runs.request Sample.checks_denied "v1.2") = Ok tt.
Proof.
  destruct (denied_check_run_disables_reporting Sample.checks_denied 42
              "Fix the parser" (Some "Closes #4.") "main" "fix-parser"
              Sample.sha "v1.2" Sample.pulls Sample.slug Sample.remote
              Sample.not_accessible eq_refl eq_refl eq_refl eq_refl)
    as (Hquiet & rest & Hcalls & Hpushed & _ & Hrest & Hresult).
  split; [reflexivity|]. split; [exact Hquiet|].
  unfold Runs.request. rewrite Hcalls, Hrest. split.
  - right. right. apply in_or_app. left. exact Hpushed.
  - split; [reflexivity | exact Hresult].
Defined.

(** Check runs are refused and the remote cannot be reached: the request
    ends with the error of the clone, which is neither of the classified
    ones; nothing is pushed and no pull request is asked for. *)
Lemma denied_check_run_then_unclassified_failure :
  gh_post Cases.checks_denied_unreachable "/repos/octo/repo/check-runs"
    (JObj [("name", JStr "Backport to v1.2");
           ("head_sha", JStr "fix-parser");
           ("status", JStr "queued");
           ("started_at", JStr "2020-01-01T00:00:00Z")])
    = Raise Sample.not_accessible /\
  Runs.request Cases.checks_denied_unreachable "v1.2"
    = (Raise Sample.connection_failed,
       [ApiPost "/repos/octo/repo/check-runs" (Some "antiope")
          (JObj [("name", JStr "Backport to v1.2");
                 ("head_sha", JStr "fix-parser");
                 ("status", JStr "queued");
                 ("started_at", JStr "2020-01-01T00:00:00Z")]);
        GetToken;
        TemporaryDirectory "octo--repo---v1.2---" "---PR-42.git";
        CloneRepository "https://github.com/octo/repo.git" "/tmp/clone" true
          "ghs_token";
        TemporaryDirectoryCleanup]) /\
  isinstance Sample.connection_failed LookupError = false /\
  isinstance Sample.connection_failed PermissionError = false.
Proof. vm_compute. repeat split. Qed.


Lemma pull_request_is_requested_witness :
  In (Push ["HEAD:refs/heads/patchback/backports/v1.2/0123456789abcdef/pr42"]
        "ghs_token")
    (snd (Runs.request Sample.happy "v1.2")) /\
  remote_push Sample.happy
    ["HEAD:refs/heads/patchback/backports/v1.2/0123456789abcdef/pr42"]
    = Ok tt /\
  filter creates_pull_request (snd (Runs.request Sample.happy "v1.2"))
    = [ApiPost "https://api.github.com/repos/octo/repo/pulls" None
         (JObj [("title",
                 JStr "[PR #42/01234567 backport][v1.2] Fix the parser");
                ("head",
                 JStr "patchback/backports/v1.2/0123456789abcdef/pr42");
                ("base", JStr "v1.2");
                ("body",
                 JStr ("**This is a backport of PR #42 as merged into main "
                       ++ "(0123456789abcdef).**" ++ LF ++ LF
                       ++ "Closes #4."));
                ("maintainer_can_modify", JBool true);
                ("draft", JBool false)])].
Proof.
  assert (Hin : In (Push ["HEAD:refs/heads/patchback/backports/v1.2/0123456789abcdef/pr42"]
                      "ghs_token")
                  (snd (Runs.request Sample.happy "v1.2")))
    by (vm_compute; tauto).
  split; [exact Hin|]. split; [reflexivity|].
  exact (pull_request_is_requested Sample.happy 42 "Fix the parser"
           (Some "Closes #4.") "main" "fix-parser" Sample.sha "v1.2"
           Sample.pulls Sample.slug Sample.remote _ _ Hin eq_refl).
Defined.

(** The branch is pushed, and the API fails on the update of the check run
    that follows: the error is raised and no pull request is asked for. *)
Lemma failed_update_blocks_the_pull_request :
  In (Push ["HEAD:refs/heads/patchback/backports/v1.2/0123456789abcdef/pr42"]
        "ghs_token")
    (snd (Runs.request Cases.updates_break "v1.2")) /\
  remote_push Cases.updates_break
    ["HEAD:refs/heads/patchback/backports/v1.2/0123456789abcdef/pr42"]
    = Ok tt /\
  fst (Runs.request Cases.updates_break "v1.2") = Raise Sample.server_error /\
  filter creates_pull_request (snd (Runs.request Cases.updates_break "v1.2"))
    = [] /\
  filter is_update (snd (Runs.request Cases.updates_break "v1.2"))
    = [ApiPatch "/repos/octo/repo/check-runs/7" (Some "antiope")
         (JObj [("name", JStr "Backport to v1.2");
                ("status", JStr "in_progress")]);
       ApiPatch "/repos/octo/repo/check-runs/7" (Some "antiope")
         (JObj [("name", JStr "Backport to v1.2");
                ("status", JStr "in_progress");
                ("output",
                 JObj [("title", JStr "Backport to v1.2: cherry-pick succeeded");
                       ("text",
                        JStr "PR branch created, proceeding with making a PR.");
                       ("summary",
                        JStr "Backport PR branch: `patchback/backports/v1.2/0123456789abcdef/pr42")])])].
Proof. split; [vm_compute; tauto|]. vm_compute. repeat split. Qed.

(** A pull request without description has [null] as body; the note is then
    followed by the text [None]. *)
Example pull_request_without_description :
  jget "body"
    (pull_request_data 42 "Fix the parser" None "main" "0123456789abcdef"
       "v1.2" "patchback/backports/v1.2/0123456789abcdef/pr42")
  = Some (JStr ("**This is a backport of PR #42 as merged into main "
                ++ "(0123456789abcdef).**" ++ LF ++ LF ++ "None")).
Proof. reflexivity. Qed.

Lemma unclassified_failure_stops_fan_out :
  target_branches_of Sample.pr5 = ["v1.2"; "v1.3"] /\
  fst (on_merge_of_labeled_pr Sample.first_unreachable 5 Sample.pr5 Sample.repo)
    = Raise Sample.connection_failed /\
  filter creates_check_run
    (snd (on_merge_of_labeled_pr Sample.first_unreachable 5 Sample.pr5
            Sample.repo))
    = [ApiPost "/repos/octo/repo/check-runs" (Some "antiope")
         (queued_data "Backport to v1.2" "fix-parser" "2020-01-01T00:00:00Z")] /\
  fst (process_pr_backport_labels (Sample.first_unreachable 1) 5
         "Fix the parser" (Some "Closes #4.") "main" "fix-parser" Sample.sha "v1.3"
         Sample.pulls Sample.slug Sample.remote) = Ok tt.
Proof. vm_compute. repeat split. Qed.

Lemma fan_out_of_merged_pr_witness :
  merged Sample.pr5 = true /\
  on_merge_of_labeled_pr (fun _ => Sample.happy) 5 Sample.pr5 Sample.repo
  = (Ok tt,
     (snd (process_pr_backport_labels Sample.happy 5 "Fix the parser"
             (Some "Closes #4.") "main" "fix-parser" Sample.sha "v1.2" Sample.pulls
             Sample.slug Sample.remote)
      ++ snd (process_pr_backport_labels Sample.happy 5 "Fix the parser"
                (Some "Closes #4.") "main" "fix-parser" Sample.sha "v1.3"
                Sample.pulls Sample.slug Sample.remote))%list).
Proof.
  split; [reflexivity|].
  destruct (fan_out_of_merged_pr (fun _ => Sample.happy) 5 Sample.pr5
              Sample.repo eq_refl) as (_ & Hall & _).
  rewrite Hall.
  - cbn [calls_of_each map filter]. vm_compute. reflexivity.
  - intros [|[|k]] t Hk; try (injection Hk as <-; reflexivity).
    destruct k; discriminate Hk.
Defined.

(** Why the commit ids are taken without [/]: over arbitrary strings, where
    the target branch and the commit id may both contain one, two triples
    can give the same name. *)
Lemma branch_name_is_not_injective :
  backport_branch_name "a" "b/c" 1 = backport_branch_name "a/b" "c" 1 /\
  ("a", "b/c", 1) <> ("a/b", "c", 1).
Proof. split; [reflexivity | discriminate]. Qed.

Lemma backport_branch_name_injective_witness :
  PyStr.char_in "/" "0123456789abcdef" = false /\
  ("v1.2" = "v1.2" /\ "0123456789abcdef" = "0123456789abcdef" /\ 42 = 42).
Proof.
  split; [reflexivity|].
  apply (backport_branch_name_injective "v1.2" "0123456789abcdef" 42
           "v1.2" "0123456789abcdef" 42); reflexivity.
Defined.

Lemma check_run_error_propagates_witness :
  gh_post Sample.checks_broken "/repos/octo/repo/check-runs"
    (queued_data "Backport to v1.2" "fix-parser" "2020-01-01T00:00:00Z")
    = Raise Sample.server_error /\
  Runs.request Sample.checks_broken "v1.2"
  = (Raise Sample.server_error,
     [ApiPost "/repos/octo/repo/check-runs" (Some "antiope")
        (queued_data "Backport to v1.2" "fix-parser" "2020-01-01T00:00:00Z")]).
Proof.
  split; [reflexivity|].
  apply (check_run_error_propagates Sample.checks_broken 42 "Fix the parser"
           (Some "Closes #4.") "main" "fix-parser" Sample.sha "v1.2" Sample.pulls
           Sample.slug Sample.remote Sample.server_error).
  - reflexivity.
  - intros [H _]. discriminate H.
Defined.

(** ** More on the executor *)

Lemma replace_char_removes c r s :
  PyStr.char_in c r = false -> PyStr.char_in c (PyStr.replace_char c r s) = false.
Proof.
  intros Hr. induction s as [|a s IH]; [reflexivity|]. cbn [PyStr.replace_char].
  destruct (Ascii.eqb a c) eqn:Hac.
  - now rewrite char_in_append, Hr, IH.
  - cbn [PyStr.char_in]. now rewrite Hac, IH.
Qed.

Section ExecutorRuns.

Variable w : World.
Variables (pr_number : Z).
Variables (merge_commit_sha target_branch repo_slug repo_remote token : string).

(* The run of the executor, as [E : run = (r, tr)], split on every answer. *)
Ltac executor_cases E :=
  unfold backport_pr_sync in E; unfold_m_in E; cbn [fst snd app] in E;
  all_answers E; injection E as <- <-.

(** X1: the temporary directory is released however the run ends.  When the
    directory was created, the calls of the run are its creation, calls that
    neither create nor remove a directory, and its removal, last; when the
    creation fails, that failure is the outcome and nothing else is called. *)
Theorem temporary_directory_is_released :
  let prefix :=
    PyStr.replace_char "/" "--" repo_slug ++ "---" ++ target_branch ++ "---" in
  let suffix := "---PR-" ++ PyStr.of_int pr_number ++ ".git" in
  let ex := backport_pr_sync w pr_number merge_commit_sha target_branch
              repo_slug repo_remote token in
  match mkdtemp w prefix suffix with
  | Ok _ =>
      exists calls,
        snd ex = (TemporaryDirectory prefix suffix
                  :: calls ++ [TemporaryDirectoryCleanup])%list /\
        filter is_tmpdir_call calls = []
  | Raise e => ex = (Raise e, [TemporaryDirectory prefix suffix])
  end.
Proof.
  intros prefix suffix ex. subst prefix suffix ex.
  destruct (backport_pr_sync _ _ _ _ _ _ _) as [r tr] eqn:E.
  executor_cases E; cbn [snd]; try reflexivity.
  all: match goal with
       | |- exists calls, _ :: ?l = _ /\ _ =>
           exists (removelast l); split; reflexivity
       end.
Qed.

(** X2: the executor pushes at most once, the reference
    [HEAD:refs/heads/<backport branch>] with the token it was given, and only
    after the cherry was resolved, the target branch found, the trees merged
    and written, and the commit created. *)
Theorem push_follows_the_commit refspecs tk :
  let ex := backport_pr_sync w pr_number merge_commit_sha target_branch
              repo_slug repo_remote token in
  let name := backport_branch_name target_branch merge_commit_sha pr_number in
  In (Push refspecs tk) (snd ex) ->
  exists cherry tip parent0 others index tree_id,
    revparse_single w merge_commit_sha = Ok cherry /\
    branches_getitem w ("origin/" ++ target_branch) = Ok tip /\
    parents cherry = parent0 :: others /\
    merge_trees w (tree parent0) (mkBranch ("refs/heads/" ++ name) (oid tip))
      cherry = Ok index /\
    write_tree w index = Ok tree_id /\
    create_commit w ("refs/heads/" ++ name) (author cherry) bot_signature
      (message cherry) tree_id [oid tip] = Ok tt /\
    refspecs = ["HEAD:refs/heads/" ++ name] /\ tk = token /\
    filter is_push (snd ex) = [Push refspecs tk].
Proof.
  intros ex name. subst ex name.
  destruct (backport_pr_sync _ _ _ _ _ _ _) as [r tr] eqn:E.
  executor_cases E; cbn [snd]; intros H; members.
  all: injection H as <- <-.
  all: repeat match goal with u : unit |- _ => destruct u end.
  all: do 6 eexists; repeat (split; [eassumption || reflexivity|]); reflexivity.
Qed.

(** X3: a failure of the clone ends the run at once: a [KeyError] is raised
    as [LookupError('Failed to check out branch <target_branch>')], any other
    error as it is; nothing is fetched, merged or pushed, and the directory is
    released. *)
Theorem clone_failure_ends_the_run tmp_dir e :
  let prefix :=
    PyStr.replace_char "/" "--" repo_slug ++ "---" ++ target_branch ++ "---" in
  let suffix := "---PR-" ++ PyStr.of_int pr_number ++ ".git" in
  mkdtemp w prefix suffix = Ok tmp_dir ->
  clone_repository w repo_remote tmp_dir = Raise e ->
  backport_pr_sync w pr_number merge_commit_sha target_branch repo_slug
    repo_remote token
  = (Raise (if isinstance e KeyError
            then mkExn LookupError
                   ("Failed to check out branch " ++ target_branch) None
            else e),
     [TemporaryDirectory prefix suffix;
      CloneRepository repo_remote tmp_dir true token;
      TemporaryDirectoryCleanup]).
Proof.
  intros prefix suffix Htmp Hclone. subst prefix suffix.
  unfold backport_pr_sync. unfold_m. rewrite Htmp. cbn [fst snd app].
  rewrite Hclone. now destruct (isinstance e KeyError).
Qed.

(** X4: a commit without parents cannot be picked: once the merge base has
    been computed, [cherry.parents[0]] raises
    [IndexError('list index out of range')], and no tree is merged, no commit
    created, nothing pushed. *)
Theorem cherry_without_parents cherry tip mb :
  let ex := backport_pr_sync w pr_number merge_commit_sha target_branch
              repo_slug repo_remote token in
  revparse_single w merge_commit_sha = Ok cherry ->
  parents cherry = [] ->
  In (MergeBase (oid cherry) (oid tip)) (snd ex) ->
  merge_base w (oid cherry) (oid tip) = Ok mb ->
  fst ex = Raise (mkExn IndexError "list index out of range" None) /\
  filter (fun c => is_merge_trees c || is_create_commit c || is_push c)
    (snd ex) = [].
Proof.
  intros ex Hc Hp Hin Hmb. subst ex. revert Hin.
  destruct (backport_pr_sync _ _ _ _ _ _ _) as [r tr] eqn:E.
  unfold backport_pr_sync in E; unfold_m_in E; cbn [fst snd app] in E.
  rewrite Hc in E. cbn [fst snd app] in E. rewrite Hp in E.
  all_answers E; injection E as <- <-; cbn [fst snd]; intros H; members.
  all: try (injection H; intros; cbn [branch_target] in *; congruence).
  all: split; reflexivity.
Qed.

(** Every call of the executor that authenticates does so with the token the
    executor was given. *)
Lemma executor_carries_its_token :
  Forall (carries_token token)
    (snd (backport_pr_sync w pr_number merge_commit_sha target_branch
            repo_slug repo_remote token)).
Proof.
  destruct (backport_pr_sync _ _ _ _ _ _ _) as [r tr] eqn:E.
  executor_cases E; cbn [snd]; repeat constructor.
Qed.

(** X5: the name of the temporary directory is built from a prefix that holds
    a [/] exactly when the target branch does (those of the repository slug
    are replaced by [--]) and from a suffix that holds none. *)
Theorem temporary_directory_name :
  exists prefix suffix,
    hd_error
      (snd (backport_pr_sync w pr_number merge_commit_sha target_branch
              repo_slug repo_remote token))
    = Some (TemporaryDirectory prefix suffix) /\
    PyStr.char_in "/" prefix = PyStr.char_in "/" target_branch /\
    PyStr.char_in "/" suffix = false.
Proof.
  exists (PyStr.replace_char "/" "--" repo_slug ++ "---" ++ target_branch
          ++ "---"), ("---PR-" ++ PyStr.of_int pr_number ++ ".git").
  split; [|split].
  - destruct (backport_pr_sync _ _ _ _ _ _ _) as [r tr] eqn:E.
    executor_cases E; reflexivity.
  - rewrite !char_in_append, replace_char_removes by reflexivity.
    cbn. now rewrite orb_false_r.
  - rewrite !char_in_append, of_int_no_slash. reflexivity.
Qed.

End ExecutorRuns.

(** ** More on one request *)

Lemma ends_at_app p l m :
  filter p l = [] -> ends_at p (l ++ m) = ends_at p m.
Proof.
  induction l as [|c l IH]; [reflexivity|]. cbn [filter app ends_at].
  destruct (p c); [discriminate | exact IH].
Qed.

Lemma ends_at_last p : forall calls before c after,
  ends_at p calls = true ->
  calls = (before ++ c :: after)%list -> p c = true -> after = [].
Proof.
  induction calls as [|x calls IH]; intros before c after Hend Hcut Hc.
  - now destruct before.
  - cbn [ends_at] in Hend. destruct before as [|y before]; cbn [app] in Hcut.
    + injection Hcut as -> ->. rewrite Hc in Hend. now destruct after.
    + injection Hcut as -> ->. destruct (p y).
      * now destruct before.
      * now apply (IH before c after).
Qed.

Lemma executor_makes_no_api_call w pr_number pr_merge_commit target_branch
  repo_slug git_url tok r tr :
  backport_pr_sync w pr_number pr_merge_commit target_branch repo_slug
    git_url tok = (r, tr) ->
  Forall (fun c => is_api_call c = false) tr.
Proof.
  intros E. apply Forall_forall. intros c Hc.
  eapply backport_pr_sync_git_only. rewrite E. exact Hc.
Qed.

Section OrchestratorRuns.

Variable w : World.
Variables (pr_number : Z).
Variables (pr_title : string) (pr_body : option string).
Variables (pr_base_ref pr_head_ref pr_merge_commit target_branch pr_api_url
           repo_slug git_url : string).

Ltac fold_payloads := fold_payloads_of w repo_slug target_branch pr_head_ref.

(** X6: a failure of the executor is handled by its class alone.  Every
    [LookupError] (a missing target branch, but also a merge commit that
    cannot be resolved or a cherry without parents) is reported on the check
    run as [target branch does not exist]; every [PermissionError] as
    [could not push]; both with the error's text as summary, and the request
    ends there.  Any other error is raised, and the check run gets no
    further update. *)
Theorem executor_failure_is_handled_by_class tok e resp :
  let name := "Backport to " ++ target_branch in
  let uri :=
    ("/repos/" ++ repo_slug ++ "/check-runs") ++ "/"
    ++ PyStr.of_int (resp_id resp) in
  let queued :=
    JObj [("name", JStr name);
          ("head_sha", JStr pr_head_ref);
          ("status", JStr "queued");
          ("started_at", JStr (utcnow_isoformat w 0 ++ "Z"))] in
  let started := JObj [("name", JStr name); ("status", JStr "in_progress")] in
  gh_post w ("/repos/" ++ repo_slug ++ "/check-runs") queued = Ok resp ->
  gh_patch w uri started = Ok tt ->
  get_token w = Ok tok ->
  let ex := backport_pr_sync w pr_number pr_merge_commit target_branch
              repo_slug git_url tok in
  fst ex = Raise e ->
  let run := process_pr_backport_labels w pr_number pr_title pr_body
               pr_base_ref pr_head_ref pr_merge_commit target_branch
               pr_api_url repo_slug git_url in
  let report why :=
    JObj [("name", JStr name);
          ("status", JStr "completed");
          ("conclusion", JStr "neutral");
          ("completed_at", JStr (utcnow_isoformat w 1 ++ "Z"));
          ("output",
           JObj [("title", JStr (name ++ ": cherry-picking failed — " ++ why));
                 ("text", JStr "");
                 ("summary", JStr (exn_str e))])] in
  let before :=
    (ApiPost ("/repos/" ++ repo_slug ++ "/check-runs") (Some "antiope") queued
     :: ApiPatch uri (Some "antiope") started
     :: GetToken :: snd ex)%list in
  if isinstance e LookupError then
    run = (gh_patch w uri (report "target branch does not exist"),
           (before ++ [ApiPatch uri (Some "antiope")
                         (report "target branch does not exist")])%list)
  else if isinstance e PermissionError then
    run = (gh_patch w uri (report "could not push"),
           (before ++ [ApiPatch uri (Some "antiope")
                         (report "could not push")])%list)
  else run = (Raise e, before).
Proof.
  intros name uri queued started Hpost Hpatch Htok ex Hex run report before.
  subst name uri queued started ex run report before. fold_payloads.
  destruct (backport_pr_sync _ _ _ _ _ _ _) as [r tr] eqn:E.
  cbn [fst snd] in *. subst r.
  unfold process_pr_backport_labels. unfold_m.
  rewrite Hpost. cbn [fst snd app]. rewrite Hpatch, Htok.
  cbn [fst snd app]. rewrite E.
  destruct (isinstance e LookupError);
    [|destruct (isinstance e PermissionError)]; cbn [fst snd app];
    rewrite ?app_nil_r; reflexivity.
Qed.

(** X7: a failure of the token provider is handled like a failure of the
    executor, by its class, and no git call is made: the calls of the request
    are the creation of the check run, its first update, the token request,
    and the report when the error is a [LookupError] or a
    [PermissionError]. *)
Theorem token_failure_is_handled_by_class e resp :
  let name := "Backport to " ++ target_branch in
  let uri :=
    ("/repos/" ++ repo_slug ++ "/check-runs") ++ "/"
    ++ PyStr.of_int (resp_id resp) in
  let queued :=
    JObj [("name", JStr name);
          ("head_sha", JStr pr_head_ref);
          ("status", JStr "queued");
          ("started_at", JStr (utcnow_isoformat w 0 ++ "Z"))] in
  let started := JObj [("name", JStr name); ("status", JStr "in_progress")] in
  gh_post w ("/repos/" ++ repo_slug ++ "/check-runs") queued = Ok resp ->
  gh_patch w uri started = Ok tt ->
  get_token w = Raise e ->
  let run := process_pr_backport_labels w pr_number pr_title pr_body
               pr_base_ref pr_head_ref pr_merge_commit target_branch
               pr_api_url repo_slug git_url in
  let report why :=
    JObj [("name", JStr name);
          ("status", JStr "completed");
          ("conclusion", JStr "neutral");
          ("completed_at", JStr (utcnow_isoformat w 1 ++ "Z"));
          ("output",
           JObj [("title", JStr (name ++ ": cherry-picking failed — " ++ why));
                 ("text", JStr "");
                 ("summary", JStr (exn_str e))])] in
  let before :=
    [ApiPost ("/repos/" ++ repo_slug ++ "/check-runs") (Some "antiope") queued;
     ApiPatch uri (Some "antiope") started;
     GetToken] in
  if isinstance e LookupError then
    run = (gh_patch w uri (report "target branch does not exist"),
           (before ++ [ApiPatch uri (Some "antiope")
                         (report "target branch does not exist")])%list)
  else if isinstance e PermissionError then
    run = (gh_patch w uri (report "could not push"),
           (before ++ [ApiPatch uri (Some "antiope")
                         (report "could not push")])%list)
  else run = (Raise e, before).
Proof.
  intros name uri queued started Hpost Hpatch Htok run report before.
  subst name uri queued started run report before. fold_payloads.
  unfold process_pr_backport_labels. unfold_m.
  rewrite Hpost. cbn [fst snd app]. rewrite Hpatch, Htok.
  cbn [fst snd app].
  destruct (isinstance e LookupError);
    [|destruct (isinstance e PermissionError)]; reflexivity.
Qed.

(** X8: when the branch is pushed and the creation of the pull request
    fails, a [ValidationError], and a [BadRequest] with status 403 and the
    text [Resource not accessible by integration], end the request normally
    with one terminal update, [completed] and [neutral], whose summary names
    the pushed branch and gives the error's text; any other error is raised
    and no terminal update is made.  The pushed branch is left as it is. *)
Theorem pull_request_failure_is_handled_by_class tok b e resp :
  let name := "Backport to " ++ target_branch in
  gh_post w ("/repos/" ++ repo_slug ++ "/check-runs")
    (JObj [("name", JStr name);
           ("head_sha", JStr pr_head_ref);
           ("status", JStr "queued");
           ("started_at", JStr (utcnow_isoformat w 0 ++ "Z"))])
  = Ok resp ->
  (forall uri data, gh_patch w uri data = Ok tt) ->
  get_token w = Ok tok ->
  fst (backport_pr_sync w pr_number pr_merge_commit target_branch repo_slug
         git_url tok) = Ok b ->
  gh_post w pr_api_url
    (JObj [("title",
            JStr ("[PR #" ++ PyStr.of_int pr_number ++ "/"
                  ++ PyStr.slice_to 8 pr_merge_commit ++ " backport]["
                  ++ target_branch ++ "] " ++ pr_title));
           ("head", JStr b);
           ("base", JStr target_branch);
           ("body",
            JStr ("**This is a backport of PR #" ++ PyStr.of_int pr_number
                  ++ " as merged into " ++ pr_base_ref ++ " ("
                  ++ pr_merge_commit ++ ").**" ++ LF ++ LF
                  ++ PyStr.of_optional pr_body));
           ("maintainer_can_modify", JBool true);
           ("draft", JBool false)])
  = Raise e ->
  let run := process_pr_backport_labels w pr_number pr_title pr_body
               pr_base_ref pr_head_ref pr_merge_commit target_branch
               pr_api_url repo_slug git_url in
  let refused :=
    isinstance e ValidationError
    || (isinstance e BadRequest
        && match exn_status_code e with
           | Some code => code =? 403
           | None => false
           end
        && String.eqb (exn_str e) "Resource not accessible by integration")
  in
  fst run = (if refused then Ok tt else Raise e) /\
  filter is_terminal_update (snd run) =
    (if refused then
       [ApiPatch
          (("/repos/" ++ repo_slug ++ "/check-runs") ++ "/"
           ++ PyStr.of_int (resp_id resp))
          (Some "antiope")
          (JObj [("name", JStr name);
                 ("status", JStr "completed");
                 ("conclusion", JStr "neutral");
                 ("completed_at", JStr (utcnow_isoformat w 1 ++ "Z"));
                 ("output",
                  JObj [("title",
                         JStr (name ++ ": creation of the backport PR failed"));
                        ("text", JStr "");
                        ("summary",
                         JStr ("Backport PR branch: `" ++ b ++ LF ++ LF
                               ++ exn_str e))])])]
     else []) /\
  filter is_git_work (snd run) =
    filter is_git_work
      (snd (backport_pr_sync w pr_number pr_merge_commit target_branch
              repo_slug git_url tok)).
Proof.
  intros name Hpost Hpatch Htok Hex Hpr run refused.
  subst name run refused. fold_payloads.
  change (gh_post w pr_api_url
            (pull_request_data pr_number pr_title pr_body pr_base_ref
               pr_merge_commit target_branch b) = Raise e) in Hpr.
  rewrite <- pull_request_refusal.
  destruct (backport_pr_sync _ _ _ _ _ _ _) as [r tr] eqn:E.
  cbn [fst snd] in *. subst r.
  unfold process_pr_backport_labels. unfold_m.
  rewrite Hpost. cbn [fst snd app]. rewrite Hpatch, Htok.
  cbn [fst snd app]. rewrite E. cbn [fst snd app]. rewrite Hpatch.
  cbn [fst snd app]. rewrite Hpr. cbn [fst snd app].
  destruct (isinstance e ValidationError).
  - rewrite Hpatch. cbn [fst snd app]. split; [reflexivity|].
    split; cbn [fst snd]; read_calls; rewrite ?app_nil_r; reflexivity.
  - destruct (isinstance e BadRequest).
    + destruct (status_code_ne e FORBIDDEN); cbn [negb orb].
      * split; [reflexivity|].
        split; cbn [fst snd]; read_calls; rewrite ?app_nil_r; reflexivity.
      * destruct (String.eqb (exn_str e) not_accessible_message);
          cbn [negb]; rewrite ?Hpatch; cbn [fst snd app];
          (split; [reflexivity|]);
          split; cbn [fst snd]; read_calls; rewrite ?app_nil_r; reflexivity.
    + split; [reflexivity|].
      split; cbn [fst snd]; read_calls; rewrite ?app_nil_r; reflexivity.
Qed.

End OrchestratorRuns.

(** ** What every run of a request keeps *)

Section RequestInvariants.

Variable w : World.
Variables (pr_number : Z).
Variables (pr_title : string) (pr_body : option string).
Variables (pr_base_ref pr_head_ref pr_merge_commit target_branch pr_api_url
           repo_slug git_url : string).

Lemma run_ends_at_terminal_update :
  ends_at is_terminal_update
    (snd (process_pr_backport_labels w pr_number pr_title pr_body pr_base_ref
            pr_head_ref pr_merge_commit target_branch pr_api_url repo_slug
            git_url)) = true.
Proof.
  remember (process_pr_backport_labels _ _ _ _ _ _ _ _ _ _ _) as p eqn:R.
  symmetry in R. run_cases R; subst p; cbn [fst snd].
  all: cbn;
    repeat match goal with
    | E : backport_pr_sync _ _ _ _ _ _ _ = (_, ?tr)
      |- context [ends_at ?p (?tr ++ ?m)] =>
        rewrite (ends_at_app p tr m
                   (no_api_call_in_executor p _ _ _ _ _ _ _ _ _ E
                      terminal_update_is_api))
    end; reflexivity.
Qed.

(** X9: a terminal update is the last call of a request: whatever the run,
    nothing is called after an update to [completed]. *)
Theorem terminal_update_is_last before c after :
  snd (process_pr_backport_labels w pr_number pr_title pr_body pr_base_ref
         pr_head_ref pr_merge_commit target_branch pr_api_url repo_slug
         git_url) = (before ++ c :: after)%list ->
  is_terminal_update c = true ->
  after = [].
Proof.
  intros Hcut Hc.
  exact (ends_at_last _ _ _ _ _ run_ends_at_terminal_update Hcut Hc).
Qed.

(** X10: every status update of a request is a [PATCH], with the preview
    flag, of the check run that the request created: its address is the
    check-runs address followed by the identifier the creation returned, and
    it carries the name [Backport to <target_branch>].  The first one sets
    [in_progress] and nothing else. *)
Theorem updates_address_the_created_check_run :
  let run := process_pr_backport_labels w pr_number pr_title pr_body
               pr_base_ref pr_head_ref pr_merge_commit target_branch
               pr_api_url repo_slug git_url in
  let name := "Backport to " ++ target_branch in
  match
    gh_post w ("/repos/" ++ repo_slug ++ "/check-runs")
      (JObj [("name", JStr name);
             ("head_sha", JStr pr_head_ref);
             ("status", JStr "queued");
             ("started_at", JStr (utcnow_isoformat w 0 ++ "Z"))])
  with
  | Ok resp =>
      let uri :=
        ("/repos/" ++ repo_slug ++ "/check-runs") ++ "/"
        ++ PyStr.of_int (resp_id resp) in
      Forall
        (fun c => exists data,
           c = ApiPatch uri (Some "antiope") data /\
           jget "name" data = Some (JStr name))
        (filter is_update (snd run)) /\
      hd_error (filter is_update (snd run))
      = Some (ApiPatch uri (Some "antiope")
                (JObj [("name", JStr name); ("status", JStr "in_progress")]))
  | Raise _ => filter is_update (snd run) = []
  end.
Proof.
  intros run name. subst run name.
  fold_payloads_of w repo_slug target_branch pr_head_ref.
  remember (process_pr_backport_labels _ _ _ _ _ _ _ _ _ _ _) as p eqn:R.
  symmetry in R. run_cases R; subst p; cbn [fst snd].
  all: read_calls; try reflexivity.
  all: split; [|reflexivity].
  all: repeat (constructor; [eexists; split; reflexivity|]); constructor.
Qed.

(** X11: the token is requested at most once in a request, and every call
    that authenticates against the git remote (clone, fetch, push) carries
    the token that request returned; when no token is returned, no call but
    calls to the API is made. *)
Theorem git_calls_carry_the_fetched_token :
  let run := process_pr_backport_labels w pr_number pr_title pr_body
               pr_base_ref pr_head_ref pr_merge_commit target_branch
               pr_api_url repo_slug git_url in
  (List.length (filter is_get_token (snd run)) <= 1)%nat /\
  match get_token w with
  | Ok tok => Forall (carries_token tok) (snd run)
  | Raise _ => Forall (fun c => is_api_call c = true) (snd run)
  end.
Proof.
  intros run. subst run.
  destruct (get_token w) as [tok|te] eqn:Htok.
  all: remember (process_pr_backport_labels _ _ _ _ _ _ _ _ _ _ _) as p eqn:R;
    symmetry in R; unfold process_pr_backport_labels in R; unfold_m_in R;
    rewrite Htok in R; cbn [fst snd app] in R; all_answers R; subst p;
    cbn [fst snd].
  all: split;
    [ cbn [filter]; rewrite ?filter_app;
      repeat match goal with
      | E : backport_pr_sync _ _ _ _ _ _ _ = (_, ?tr)
        |- context [filter is_get_token ?tr] =>
          rewrite (no_api_call_in_executor is_get_token _ _ _ _ _ _ _ _ _ E)
            by (intros c; now destruct c)
      end; cbn; repeat constructor
    | ].
  all: repeat (apply Forall_cons; [exact I || reflexivity|]).
  all: try apply Forall_nil.
  all: apply Forall_app; split;
    [ | repeat (apply Forall_cons; [exact I|]); apply Forall_nil ].
  all: match goal with
       | E : backport_pr_sync ?a ?n ?s ?t ?g ?u ?k = (_, ?tr) |- _ =>
           let F := fresh "F" in
           pose proof (executor_carries_its_token a n s t g u k) as F;
           rewrite E in F; exact F
       end.
Qed.

(** X12: a request asks for a pull request at most once, and only when the
    executor returned the backport branch after a push the remote accepted;
    the pull request then has that branch as head. *)
Theorem pull_request_only_after_push :
  let run := process_pr_backport_labels w pr_number pr_title pr_body
               pr_base_ref pr_head_ref pr_merge_commit target_branch
               pr_api_url repo_slug git_url in
  let backport_pr_branch :=
    "patchback/backports/" ++ target_branch ++ "/" ++ pr_merge_commit
    ++ "/pr" ++ PyStr.of_int pr_number in
  filter creates_pull_request (snd run) = [] \/
  exists tok,
    get_token w = Ok tok /\
    fst (backport_pr_sync w pr_number pr_merge_commit target_branch repo_slug
           git_url tok) = Ok backport_pr_branch /\
    remote_push w ["HEAD:refs/heads/" ++ backport_pr_branch] = Ok tt /\
    filter creates_pull_request (snd run)
    = [ApiPost pr_api_url None
         (JObj [("title",
                 JStr ("[PR #" ++ PyStr.of_int pr_number ++ "/"
                       ++ PyStr.slice_to 8 pr_merge_commit ++ " backport]["
                       ++ target_branch ++ "] " ++ pr_title));
                ("head", JStr backport_pr_branch);
                ("base", JStr target_branch);
                ("body",
                 JStr ("**This is a backport of PR #"
                       ++ PyStr.of_int pr_number ++ " as merged into "
                       ++ pr_base_ref ++ " (" ++ pr_merge_commit ++ ").**"
                       ++ LF ++ LF ++ PyStr.of_optional pr_body));
                ("maintainer_can_modify", JBool true);
                ("draft", JBool false)])].
Proof.
  intros run backport_pr_branch. subst run backport_pr_branch.
  fold (backport_branch_name target_branch pr_merge_commit pr_number).
  remember (process_pr_backport_labels _ _ _ _ _ _ _ _ _ _ _) as p eqn:R.
  symmetry in R. run_cases R; subst p; cbn [fst snd].
  all: try (left; read_calls; reflexivity).
  all: right;
    match goal with
    | E : backport_pr_sync _ _ _ _ _ _ _ = (Ok _, _) |- _ =>
        destruct (backport_pr_sync_ok_inv _ _ _ _ _ _ _ _ _ E)
          as (-> & tmp & cherry & tip & p0 & ps & mb & ix & tid
              & _ & _ & _ & _ & _ & _ & Hpush & _)
    end.
  all: eexists; split; [reflexivity|].
  all: match goal with
       | E : backport_pr_sync _ _ _ _ _ _ _ = _ |- _ => rewrite E
       end; cbn [fst snd].
  all: split; [reflexivity|]; split; [exact Hpush|].
  all: read_calls; reflexivity.
Qed.

(** X13: every request begins with the creation of its check run, a [POST]
    with the preview flag to [/repos/<repo_slug>/check-runs] of a queued check
    run named [Backport to <target_branch>] on the head ref of the pull
    request, and creates no other check run. *)
Theorem request_begins_with_check_run_creation :
  exists rest,
    snd (process_pr_backport_labels w pr_number pr_title pr_body pr_base_ref
           pr_head_ref pr_merge_commit target_branch pr_api_url repo_slug
           git_url)
    = ApiPost ("/repos/" ++ repo_slug ++ "/check-runs") (Some "antiope")
        (JObj [("name", JStr ("Backport to " ++ target_branch));
               ("head_sha", JStr pr_head_ref);
               ("status", JStr "queued");
               ("started_at", JStr (utcnow_isoformat w 0 ++ "Z"))])
      :: rest /\
    filter creates_check_run rest = [].
Proof.
  remember (process_pr_backport_labels _ _ _ _ _ _ _ _ _ _ _) as p eqn:R.
  symmetry in R. run_cases R; subst p; cbn [fst snd].
  all: eexists; split; [reflexivity|]; read_calls; reflexivity.
Qed.

End RequestInvariants.

(** ** More on the webhook handlers *)

Lemma prefix_append p s : String.prefix p (p ++ s) = true.
Proof.
  induction p as [|x p IH]; cbn; [now destruct s|].
  destruct (ascii_dec x x); [exact IH | congruence].
Qed.

Lemma slice_from_append p s : PyStr.slice_from (String.length p) (p ++ s) = s.
Proof. induction p as [|x p IH]; [reflexivity | exact IH]. Qed.

Lemma prefix_slice p : forall s,
  String.prefix p s = true -> s = p ++ PyStr.slice_from (String.length p) s.
Proof.
  induction p as [|x p IH]; intros s H; [reflexivity|].
  destruct s as [|y s]; [discriminate H|]. cbn in H.
  destruct (ascii_dec x y) as [->|]; [|discriminate H].
  cbn. f_equal. now apply IH.
Qed.

Lemma request_makes_a_call w pr_number pr_title pr_body pr_base_ref
  pr_head_ref pr_merge_commit target_branch pr_api_url repo_slug git_url :
  snd (process_pr_backport_labels w pr_number pr_title pr_body pr_base_ref
         pr_head_ref pr_merge_commit target_branch pr_api_url repo_slug
         git_url) <> [].
Proof.
  remember (process_pr_backport_labels _ _ _ _ _ _ _ _ _ _ _) as p eqn:R.
  symmetry in R. run_cases R; subst p; cbn [fst snd]; discriminate.
Qed.

Lemma target_of_label pull_request l :
  In l (labels pull_request) ->
  PyStr.startswith (label_name l) BACKPORT_LABEL_PREFIX = true ->
  In (PyStr.slice_from BACKPORT_LABEL_LEN (label_name l))
    (target_branches_of pull_request).
Proof.
  intros Hl Hp. unfold target_branches_of. apply in_map. apply filter_In.
  split; [now apply in_map | exact Hp].
Qed.

Lemma label_of_target pull_request target_branch :
  In target_branch (target_branches_of pull_request) ->
  exists l,
    In l (labels pull_request) /\
    PyStr.startswith (label_name l) BACKPORT_LABEL_PREFIX = true /\
    label_name l = BACKPORT_LABEL_PREFIX ++ target_branch.
Proof.
  unfold target_branches_of. intros H.
  apply in_map_iff in H. destruct H as (name & <- & H).
  apply filter_In in H. destruct H as [H Hp].
  apply in_map_iff in H. destruct H as (l & <- & H).
  exists l. split; [exact H|]. split; [exact Hp|].
  now apply prefix_slice.
Qed.

(** A branch is among the targets exactly when the pull request carries the
    label [backport-<target branch>]: the label's name is the prefix followed
    by the branch, and the branch is the name without the prefix. *)
Lemma targets_are_the_backport_labels pull_request target_branch :
  In target_branch (target_branches_of pull_request) <->
  In (mkLabel (BACKPORT_LABEL_PREFIX ++ target_branch)) (labels pull_request).
Proof.
  split.
  - intros H. destruct (label_of_target _ _ H) as ([name] & Hl & _ & Hn).
    cbn in Hn. now subst name.
  - intros H.
    pose proof (target_of_label _ _ H (prefix_append _ _)) as Ht.
    cbn [label_name] in Ht. unfold BACKPORT_LABEL_LEN in Ht.
    now rewrite slice_from_append in Ht.
Qed.

(** X15: the merge handler makes no call at all exactly when the pull request
    is not merged or none of its labels starts with [backport-]; it then
    returns normally. *)
Theorem merge_handler_drops_what_does_not_qualify ws number pull_request
  repository :
  let run := on_merge_of_labeled_pr ws number pull_request repository in
  (snd run = [] <->
   merged pull_request = false \/
   forall l, In l (labels pull_request) ->
             PyStr.startswith (label_name l) BACKPORT_LABEL_PREFIX = false) /\
  (snd run = [] -> fst run = Ok tt).
Proof.
  intros run. subst run.
  unfold on_merge_of_labeled_pr, ensure_pr_merged.
  destruct (merged pull_request); cbn [negb].
  2: { split; [|reflexivity]. split; [now left | reflexivity]. }
  destruct (target_branches_of pull_request) as [|t ts] eqn:Ht.
  - split; [|reflexivity]. split; [|reflexivity]. intros _. right. intros l Hl.
    destruct (PyStr.startswith (label_name l) BACKPORT_LABEL_PREFIX) eqn:Hp;
      [|reflexivity].
    assert (Hin : In (PyStr.slice_from BACKPORT_LABEL_LEN (label_name l))
                    (target_branches_of pull_request)).
    { now apply target_of_label. }
    rewrite Ht in Hin. destruct Hin.
  - cbn [for_each]. unfold bind.
    pose proof (request_makes_a_call (ws 0%nat) number (title pull_request)
                  (body pull_request) (base_ref pull_request)
                  (head_ref pull_request) (merge_commit_sha pull_request) t
                  (pulls_url repository) (full_name repository)
                  (clone_url repository)) as Hcall.
    destruct (process_pr_backport_labels _ _ _ _ _ _ _ _ _ _ _) as [[u|e] tr];
      cbn [snd] in Hcall.
    + destruct (for_each 1 ts _) as [r tr']. cbn [fst snd].
      assert (Hne : (tr ++ tr')%list <> []) by now destruct tr.
      split; [|intros H; contradiction].
      split; [intros H; contradiction|].
      intros [H|H]; [discriminate H|]. exfalso.
      assert (Hin : In t (target_branches_of pull_request))
        by (rewrite Ht; now left).
      destruct (label_of_target _ _ Hin) as (l & Hl & Hp & _).
      rewrite (H l Hl) in Hp. discriminate Hp.
    + cbn [fst snd]. split; [|intros H; contradiction].
      split; [intros H; contradiction|].
      intros [H|H]; [discriminate H|]. exfalso.
      assert (Hin : In t (target_branches_of pull_request))
        by (rewrite Ht; now left).
      destruct (label_of_target _ _ Hin) as (l & Hl & Hp & _).
      rewrite (H l Hl) in Hp. discriminate Hp.
Qed.

(** ** Reporting carries no weight *)

Section Degraded.

Variable w : World.
Variables (pr_number : Z).
Variables (pr_title : string) (pr_body : option string).
Variables (pr_base_ref pr_head_ref pr_merge_commit target_branch pr_api_url
           repo_slug git_url : string).

Lemma denied_post_of_check_run data :
  gh_post (deny_check_runs w repo_slug) (check_runs_uri repo_slug) data
  = Raise (mkExn BadRequest not_accessible_message (Some FORBIDDEN)).
Proof.
  unfold deny_check_runs, with_gh_post. cbn [gh_post].
  now rewrite String.eqb_refl.
Qed.

Lemma denied_post_elsewhere uri data :
  uri <> check_runs_uri repo_slug ->
  gh_post (deny_check_runs w repo_slug) uri data = gh_post w uri data.
Proof.
  intros H. unfold deny_check_runs, with_gh_post. cbn [gh_post].
  apply String.eqb_neq in H. now rewrite H.
Qed.

Lemma denial_is_a_bad_request :
  isinstance (mkExn BadRequest not_accessible_message (Some FORBIDDEN))
    BadRequest = true.
Proof. reflexivity. Qed.

Lemma denial_is_recognised :
  status_code_ne (mkExn BadRequest not_accessible_message (Some FORBIDDEN))
    FORBIDDEN
  || negb (String.eqb
             (exn_str (mkExn BadRequest not_accessible_message (Some FORBIDDEN)))
             not_accessible_message) = false.
Proof. reflexivity. Qed.

Lemma executor_ignores_the_api tok :
  backport_pr_sync (deny_check_runs w repo_slug) pr_number pr_merge_commit
    target_branch repo_slug git_url tok
  = backport_pr_sync w pr_number pr_merge_commit target_branch repo_slug
      git_url tok.
Proof. reflexivity. Qed.

Lemma executor_calls_are_no_updates tok r tr :
  backport_pr_sync w pr_number pr_merge_commit target_branch repo_slug
    git_url tok = (r, tr) ->
  filter (fun c => negb (is_update c)) tr = tr.
Proof.
  intros E.
  pose proof (executor_makes_no_api_call _ _ _ _ _ _ _ _ _ E) as F. clear E.
  induction F as [|c tr Hc F IH]; [reflexivity|]. cbn [filter].
  destruct c; try discriminate Hc; cbn [is_update negb]; now rewrite IH.
Qed.

(** X16: whether the check run can be created or is refused for lack of
    scope changes nothing but the status updates.  In a world that accepts
    the check run and its updates, and in the same world with check runs
    refused, a request has the same outcome and, status updates apart, makes
    the same calls. *)
Theorem reporting_carries_no_weight resp :
  gh_post w (check_runs_uri repo_slug)
    (queued_data (check_run_name_of target_branch) pr_head_ref
       (utcnow_isoformat w 0 ++ "Z")) = Ok resp ->
  (forall uri data, gh_patch w uri data = Ok tt) ->
  pr_api_url <> check_runs_uri repo_slug ->
  let run := process_pr_backport_labels w pr_number pr_title pr_body
               pr_base_ref pr_head_ref pr_merge_commit target_branch
               pr_api_url repo_slug git_url in
  let degraded :=
    process_pr_backport_labels (deny_check_runs w repo_slug) pr_number
      pr_title pr_body pr_base_ref pr_head_ref pr_merge_commit target_branch
      pr_api_url repo_slug git_url in
  fst degraded = fst run /\
  snd degraded = filter (fun c => negb (is_update c)) (snd run).
Proof.
  intros Hpost Hpatch Hurl run degraded. subst run degraded.
  remember (process_pr_backport_labels w _ _ _ _ _ _ _ _ _ _) as p eqn:R.
  symmetry in R. unfold process_pr_backport_labels in R. unfold_m_in R.
  rewrite Hpost in R. cbn [fst snd app] in R. rewrite Hpatch in R.
  cbn [fst snd app] in R. all_answers R; subst p.
  all: try match goal with
       | H : gh_patch _ _ _ = Raise _ |- _ =>
           rewrite Hpatch in H; discriminate H
       end.
  all: unfold process_pr_backport_labels; unfold_m;
    change (utcnow_isoformat (deny_check_runs w repo_slug))
      with (utcnow_isoformat w);
    change (get_token (deny_check_runs w repo_slug)) with (get_token w);
    rewrite denied_post_of_check_run; cbn [fst snd app];
    rewrite denial_is_a_bad_request, denial_is_recognised.
  all: repeat (cbn [fst snd app];
               first [ rewrite denied_post_elsewhere by exact Hurl
                     | rewrite executor_ignores_the_api
                     | match goal with
                       | E : backport_pr_sync _ _ _ _ _ _ _ = _
                         |- context [backport_pr_sync _ _ _ _ _ _ _] =>
                           rewrite E
                       end
                     | progress use_answers ]).
  all: split; cbn [fst snd]; rewrite ?Hpatch; try reflexivity.
  all: cbn [filter is_update negb]; rewrite ?filter_app;
    match goal with
    | E : backport_pr_sync _ _ _ _ _ _ _ = _ |- _ =>
        rewrite (executor_calls_are_no_updates _ _ _ E)
    end; reflexivity.
Qed.

End Degraded.

(** ** The check runs of a fan-out *)

Lemma request_creates_one_check_run w pr_number pr_title pr_body pr_base_ref
  pr_head_ref pr_merge_commit target_branch pr_api_url repo_slug git_url :
  filter creates_check_run
    (snd (process_pr_backport_labels w pr_number pr_title pr_body pr_base_ref
            pr_head_ref pr_merge_commit target_branch pr_api_url repo_slug
            git_url))
  = [ApiPost (check_runs_uri repo_slug) (Some "antiope")
       (queued_data (check_run_name_of target_branch) pr_head_ref
          (utcnow_isoformat w 0 ++ "Z"))].
Proof.
  remember (process_pr_backport_labels _ _ _ _ _ _ _ _ _ _ _) as p eqn:R.
  symmetry in R. run_cases R; subst p; cbn [fst snd].
  all: read_calls; reflexivity.
Qed.

(** X17: the merge handler creates the check runs in the order of the
    backport labels, one for each label it gets to and none twice: the check
    runs created are those of the first [k] target branches, for some [k]. *)
Theorem check_runs_follow_the_labels ws number pull_request repository :
  exists k,
    (k <= List.length (target_branches_of pull_request))%nat /\
    filter creates_check_run
      (snd (on_merge_of_labeled_pr ws number pull_request repository))
    = check_run_creations ws 0 (head_ref pull_request) (full_name repository)
        (firstn k (target_branches_of pull_request)).
Proof.
  unfold on_merge_of_labeled_pr, ensure_pr_merged.
  destruct (merged pull_request); cbn [negb];
    [|exists 0%nat; split; [apply Nat.le_0_l | reflexivity]].
  set (request := fun (k : nat) (target_branch : string) =>
         process_pr_backport_labels (ws k) number (title pull_request)
           (body pull_request) (base_ref pull_request)
           (head_ref pull_request) (merge_commit_sha pull_request)
           target_branch (pulls_url repository) (full_name repository)
           (clone_url repository)).
  assert (H : forall ts k0, exists k,
             (k <= List.length ts)%nat /\
             filter creates_check_run (snd (for_each k0 ts request))
             = check_run_creations ws k0 (head_ref pull_request)
                 (full_name repository) (firstn k ts)).
  { induction ts as [|t ts IH]; intros k0.
    - exists 0%nat. split; [apply Nat.le_refl | reflexivity].
    - cbn [for_each]. unfold bind.
      pose proof (request_creates_one_check_run (ws k0) number
                    (title pull_request) (body pull_request)
                    (base_ref pull_request) (head_ref pull_request)
                    (merge_commit_sha pull_request) t (pulls_url repository)
                    (full_name repository) (clone_url repository)) as Hone.
      fold (request k0 t) in Hone.
      destruct (request k0 t) as [[u|e] tr]; cbn [snd] in Hone.
      + destruct (IH (S k0)) as (k & Hk & Hrest).
        destruct (for_each (S k0) ts request) as [r tr']. cbn [snd] in *.
        exists (S k). split; [cbn; lia|].
        rewrite filter_app, Hone, Hrest. reflexivity.
      + exists 1%nat. split; [cbn; lia|]. cbn [snd firstn].
        rewrite Hone. reflexivity. }
  destruct (target_branches_of pull_request) as [|t ts] eqn:Ht.
  - exists 0%nat. split; [apply Nat.le_refl | reflexivity].
  - apply H.
Qed.

Section Requested.

Context {A : Type} (body : nat -> A -> M unit).

Lemma for_each_ok_calls xs : forall k,
  fst (for_each k xs body) = Ok tt ->
  snd (for_each k xs body) = calls_of_each k xs body.
Proof.
  induction xs as [|x xs IH]; intros k; [reflexivity|].
  cbn [for_each calls_of_each]. unfold bind.
  destruct (body k x) as [[u|e] t]; [|discriminate].
  specialize (IH (S k)). destruct (for_each (S k) xs body) as [r t'].
  cbn [fst snd] in *. intros H. now rewrite IH.
Qed.

Lemma calls_of_each_has xs x :
  In x xs ->
  forall k0, exists k,
    forall c, In c (snd (body k x)) -> In c (calls_of_each k0 xs body).
Proof.
  induction xs as [|y xs IH]; intros Hx k0; [destruct Hx|].
  cbn [calls_of_each]. destruct Hx as [->|Hx].
  - exists k0. intros c Hc. apply in_or_app. now left.
  - destruct (IH Hx (S k0)) as [k Hk]. exists k. intros c Hc.
    apply in_or_app. right. now apply Hk.
Qed.

End Requested.

(** A check run created in a fan-out is the one of a target branch. *)
Lemma check_run_of_for_each ws number pull_request repository :
  let request k target_branch :=
    process_pr_backport_labels (ws k) number (title pull_request)
      (body pull_request) (base_ref pull_request) (head_ref pull_request)
      (merge_commit_sha pull_request) target_branch (pulls_url repository)
      (full_name repository) (clone_url repository) in
  forall ts k0 c,
    In c (snd (for_each k0 ts request)) -> creates_check_run c = true ->
    exists t k,
      In t ts /\
      c = ApiPost (check_runs_uri (full_name repository)) (Some "antiope")
            (queued_data (check_run_name_of t) (head_ref pull_request)
               (utcnow_isoformat (ws k) 0 ++ "Z")).
Proof.
  intros request. induction ts as [|t ts IH]; intros k0 c Hc Hcr;
    [destruct Hc|].
  cbn [for_each] in Hc. unfold bind in Hc.
  pose proof (request_creates_one_check_run (ws k0) number
                (title pull_request) (body pull_request)
                (base_ref pull_request) (head_ref pull_request)
                (merge_commit_sha pull_request) t (pulls_url repository)
                (full_name repository) (clone_url repository)) as Hone.
  fold (request k0 t) in Hone.
  assert (Hhere : In c (snd (request k0 t)) ->
                  exists t' k,
                    In t' (t :: ts) /\
                    c = ApiPost (check_runs_uri (full_name repository))
                          (Some "antiope")
                          (queued_data (check_run_name_of t')
                             (head_ref pull_request)
                             (utcnow_isoformat (ws k) 0 ++ "Z"))).
  { intros H.
    assert (Hf : In c (filter creates_check_run (snd (request k0 t))))
      by (apply filter_In; now split).
    rewrite Hone in Hf. destruct Hf as [<-|[]].
    exists t, k0. split; [now left | reflexivity]. }
  destruct (request k0 t) as [[u|e] tr]; cbn [snd] in *; [|now apply Hhere].
  specialize (IH (S k0) c).
  destruct (for_each (S k0) ts request) as [r tr']. cbn [snd] in *.
  apply in_app_or in Hc. destruct Hc as [Hc|Hc]; [now apply Hhere|].
  destruct (IH Hc Hcr) as (t' & k & Ht' & ->).
  exists t', k. split; [now right | reflexivity].
Qed.

(** X14: the merge handler creates the check run [Backport to <branch>] only
    for a merged pull request that carries the label [backport-<branch>];
    and for a merged pull request whose requests all return, it creates the
    check run of every such label. *)
Theorem requested_targets_are_the_backport_labels ws number pull_request
  repository target_branch :
  let run := on_merge_of_labeled_pr ws number pull_request repository in
  let requested :=
    exists started_at,
      In (ApiPost ("/repos/" ++ full_name repository ++ "/check-runs")
            (Some "antiope")
            (JObj [("name", JStr ("Backport to " ++ target_branch));
                   ("head_sha", JStr (head_ref pull_request));
                   ("status", JStr "queued");
                   ("started_at", JStr started_at)]))
        (snd run) in
  let labelled :=
    In (mkLabel ("backport-" ++ target_branch)) (labels pull_request) in
  (requested -> merged pull_request = true /\ labelled) /\
  (merged pull_request = true -> fst run = Ok tt -> labelled -> requested).
Proof.
  intros run requested labelled. subst run requested labelled.
  change "backport-" with BACKPORT_LABEL_PREFIX.
  rewrite <- targets_are_the_backport_labels.
  unfold on_merge_of_labeled_pr, ensure_pr_merged.
  destruct (merged pull_request); cbn [negb];
    [|split; [intros [? []] | discriminate]].
  set (request := fun (k : nat) (t : string) =>
         process_pr_backport_labels (ws k) number (title pull_request)
           (body pull_request) (base_ref pull_request)
           (head_ref pull_request) (merge_commit_sha pull_request) t
           (pulls_url repository) (full_name repository)
           (clone_url repository)).
  assert (Hrun : match target_branches_of pull_request with
                 | [] => ret tt
                 | _ :: _ =>
                     for_each 0 (target_branches_of pull_request) request
                 end
                 = for_each 0 (target_branches_of pull_request) request)
    by now destruct (target_branches_of pull_request).
  rewrite Hrun. clear Hrun. split.
  - intros [started_at Hin]. split; [reflexivity|].
    destruct (check_run_of_for_each ws number pull_request repository
                _ _ _ Hin eq_refl) as (t & k & Ht & Hc).
    injection Hc as Hname _. now subst t.
  - intros _ Hok Ht.
    rewrite (for_each_ok_calls request _ _ Hok).
    destruct (calls_of_each_has request _ _ Ht 0%nat) as [k Hk].
    exists (utcnow_isoformat (ws k) 0 ++ "Z"). apply Hk.
    pose proof (request_creates_one_check_run (ws k) number
                  (title pull_request) (body pull_request)
                  (base_ref pull_request) (head_ref pull_request)
                  (merge_commit_sha pull_request) target_branch
                  (pulls_url repository) (full_name repository)
                  (clone_url repository)) as Hone.
    fold (request k target_branch) in Hone.
    assert (Hf : In (ApiPost (check_runs_uri (full_name repository))
                       (Some "antiope")
                       (queued_data (check_run_name_of target_branch)
                          (head_ref pull_request)
                          (utcnow_isoformat (ws k) 0 ++ "Z")))
                   (filter creates_check_run (snd (request k target_branch))))
      by (rewrite Hone; now left).
    apply filter_In in Hf. exact (proj1 Hf).
Qed.

(** X18: the label handler creates one check run, named for the label
    without its prefix, when the pull request is merged and the label starts
    with [backport-], and makes no call at all otherwise. *)
Theorem label_handler_makes_one_request_or_none w number pull_request label
  repository :
  let run :=
    on_label_added_to_merged_pr w number pull_request (label, repository) in
  let qualifies :=
    merged pull_request
    && PyStr.startswith (label_name label) BACKPORT_LABEL_PREFIX in
  filter creates_check_run (snd run)
  = (if qualifies then
       [ApiPost ("/repos/" ++ full_name repository ++ "/check-runs")
          (Some "antiope")
          (JObj [("name",
                  JStr ("Backport to "
                        ++ PyStr.slice_from BACKPORT_LABEL_LEN
                             (label_name label)));
                 ("head_sha", JStr (head_ref pull_request));
                 ("status", JStr "queued");
                 ("started_at", JStr (utcnow_isoformat w 0 ++ "Z"))])]
     else []) /\
  (snd run = [] <-> qualifies = false).
Proof.
  intros run qualifies. subst run qualifies.
  unfold on_label_added_to_merged_pr, ensure_pr_merged.
  destruct (merged pull_request); cbn [negb andb];
    [|split; [reflexivity | now split]].
  destruct (PyStr.startswith (label_name label) BACKPORT_LABEL_PREFIX);
    cbn [negb]; [|split; [reflexivity | now split]].
  split; [exact (request_creates_one_check_run _ _ _ _ _ _ _ _ _ _ _)|].
  split; [|discriminate]. intros H. now apply request_makes_a_call in H.
Qed.

(** ** The further properties at concrete requests *)

Lemma push_follows_the_commit_witness :
  In (Push ["HEAD:refs/heads/patchback/backports/v1.2/0123456789abcdef/pr42"]
        "ghs_token")
    (snd (Runs.executor Sample.happy "v1.2")) /\
  create_commit Sample.happy
    "refs/heads/patchback/backports/v1.2/0123456789abcdef/pr42" Sample.alice
    bot_signature "Merge pull request #42" "tree-merged" ["77aa"] = Ok tt /\
  filter is_push (snd (Runs.executor Sample.happy "v1.2"))
  = [Push ["HEAD:refs/heads/patchback/backports/v1.2/0123456789abcdef/pr42"]
       "ghs_token"].
Proof.
  assert (Hin : In (Push ["HEAD:refs/heads/patchback/backports/v1.2/0123456789abcdef/pr42"]
                      "ghs_token")
                  (snd (Runs.executor Sample.happy "v1.2")))
    by (vm_compute; tauto).
  split; [exact Hin|].
  destruct (push_follows_the_commit Sample.happy 42 Sample.sha "v1.2"
              Sample.slug Sample.remote "ghs_token" _ _ Hin)
    as (cherry & tip & p0 & ps & ix & tid & _ & _ & _ & _ & _ & _ & _ & _ & Honce).
  split; [reflexivity | exact Honce].
Defined.

Lemma clone_failure_ends_the_run_witness :
  clone_repository Sample.unreachable Sample.remote "/tmp/clone"
    = Raise Sample.connection_failed /\
  Runs.executor Sample.unreachable "v1.2"
  = (Raise Sample.connection_failed,
     [TemporaryDirectory "octo--repo---v1.2---" "---PR-42.git";
      CloneRepository Sample.remote "/tmp/clone" true "ghs_token";
      TemporaryDirectoryCleanup]).
Proof.
  split; [reflexivity|].
  exact (clone_failure_ends_the_run Sample.unreachable 42 Sample.sha "v1.2"
           Sample.slug Sample.remote "ghs_token" "/tmp/clone"
           Sample.connection_failed eq_refl eq_refl).
Defined.

Lemma cherry_without_parents_witness :
  revparse_single Cases.cherry_is_root Sample.sha = Ok Cases.root_commit /\
  parents Cases.root_commit = [] /\
  fst (Runs.executor Cases.cherry_is_root "v1.2")
    = Raise (mkExn IndexError "list index out of range" None) /\
  filter (fun c => is_merge_trees c || is_create_commit c || is_push c)
    (snd (Runs.executor Cases.cherry_is_root "v1.2")) = [].
Proof.
  split; [reflexivity|]. split; [reflexivity|].
  apply (cherry_without_parents Cases.cherry_is_root 42 Sample.sha "v1.2"
           Sample.slug Sample.remote "ghs_token" Cases.root_commit
           Sample.tip_commit None).
  - reflexivity.
  - reflexivity.
  - vm_compute. tauto.
  - reflexivity.
Defined.

Lemma executor_failure_is_handled_by_class_witness :
  fst (Runs.executor Cases.unknown_commit "v1.2")
    = Raise Cases.unknown_commit_error /\
  branches_getitem Cases.unknown_commit "origin/v1.2" = Ok Sample.tip_commit /\
  fst (Runs.request Cases.unknown_commit "v1.2") = Ok tt /\
  filter is_terminal_update (snd (Runs.request Cases.unknown_commit "v1.2"))
  = [ApiPatch "/repos/octo/repo/check-runs/7" (Some "antiope")
       (JObj [("name", JStr "Backport to v1.2");
              ("status", JStr "completed");
              ("conclusion", JStr "neutral");
              ("completed_at", JStr "2020-01-01T00:00:01Z");
              ("output",
               JObj [("title",
                      JStr "Backport to v1.2: cherry-picking failed — target branch does not exist");
                     ("text", JStr "");
                     ("summary", JStr "'0123456789abcdef'")])])].
Proof.
  pose proof (executor_failure_is_handled_by_class Cases.unknown_commit 42
                "Fix the parser" (Some "Closes #4.") "main" "fix-parser" Sample.sha
                "v1.2" Sample.pulls Sample.slug Sample.remote "ghs_token"
                Cases.unknown_commit_error
                (mkResponse 7 "https://github.com/octo/repo/pull/43")
                eq_refl eq_refl eq_refl eq_refl) as H.
  cbv zeta in H.
  change (isinstance Cases.unknown_commit_error LookupError) with true in H.
  cbv iota in H. fold (Runs.request Cases.unknown_commit "v1.2") in H.
  split; [reflexivity|]. split; [reflexivity|].
  rewrite H. split; reflexivity.
Defined.

Lemma token_failure_is_handled_by_class_witness :
  get_token Cases.no_token = Raise Cases.token_unavailable /\
  Runs.request Cases.no_token "v1.2"
  = (Raise Cases.token_unavailable,
     [ApiPost "/repos/octo/repo/check-runs" (Some "antiope")
        (JObj [("name", JStr "Backport to v1.2");
               ("head_sha", JStr "fix-parser");
               ("status", JStr "queued");
               ("started_at", JStr "2020-01-01T00:00:00Z")]);
      ApiPatch "/repos/octo/repo/check-runs/7" (Some "antiope")
        (JObj [("name", JStr "Backport to v1.2");
               ("status", JStr "in_progress")]);
      GetToken]).
Proof.
  split; [reflexivity|].
  exact (token_failure_is_handled_by_class Cases.no_token 42 "Fix the parser"
           (Some "Closes #4.") "main" "fix-parser" Sample.sha "v1.2" Sample.pulls
           Sample.slug Sample.remote Cases.token_unavailable
           (mkResponse 7 "https://github.com/octo/repo/pull/43")
           eq_refl eq_refl eq_refl).
Defined.

Lemma pull_request_failure_is_handled_by_class_witness :
  gh_post Cases.pull_request_refused
    "https://api.github.com/repos/octo/repo/pulls"
    (JObj [("title", JStr "[PR #42/01234567 backport][v1.2] Fix the parser");
           ("head", JStr "patchback/backports/v1.2/0123456789abcdef/pr42");
           ("base", JStr "v1.2");
           ("body",
            JStr ("**This is a backport of PR #42 as merged into main "
                  ++ "(0123456789abcdef).**" ++ LF ++ LF ++ "Closes #4."));
           ("maintainer_can_modify", JBool true);
           ("draft", JBool false)])
    = Raise Cases.already_exists /\
  fst (Runs.request Cases.pull_request_refused "v1.2") = Ok tt /\
  filter is_terminal_update
    (snd (Runs.request Cases.pull_request_refused "v1.2"))
  = [ApiPatch "/repos/octo/repo/check-runs/7" (Some "antiope")
       (JObj [("name", JStr "Backport to v1.2");
              ("status", JStr "completed");
              ("conclusion", JStr "neutral");
              ("completed_at", JStr "2020-01-01T00:00:01Z");
              ("output",
               JObj [("title",
                      JStr "Backport to v1.2: creation of the backport PR failed");
                     ("text", JStr "");
                     ("summary",
                      JStr ("Backport PR branch: `patchback/backports/v1.2/0123456789abcdef/pr42"
                            ++ LF ++ LF
                            ++ "A pull request already exists for octo:patchback/backports/v1.2/0123456789abcdef/pr42."))])])] /\
  filter is_push (snd (Runs.request Cases.pull_request_refused "v1.2"))
  = [Push ["HEAD:refs/heads/patchback/backports/v1.2/0123456789abcdef/pr42"]
       "ghs_token"].
Proof.
  split; [reflexivity|].
  destruct (pull_request_failure_is_handled_by_class
              Cases.pull_request_refused 42 "Fix the parser" (Some "Closes #4.")
              "main" "fix-parser" Sample.sha "v1.2" Sample.pulls Sample.slug
              Sample.remote "ghs_token"
              "patchback/backports/v1.2/0123456789abcdef/pr42"
              Cases.already_exists
              (mkResponse 7 "https://github.com/octo/repo/pull/43"))
    as (Hout & Hterm & _).
  - reflexivity.
  - reflexivity.
  - reflexivity.
  - reflexivity.
  - reflexivity.
  - split; [exact Hout|]. split; [exact Hterm | reflexivity].
Defined.

Lemma terminal_update_is_last_witness :
  exists before c,
    snd (Runs.request Sample.happy "v1.2") = (before ++ [c])%list /\
    is_terminal_update c = true /\
    forall after,
      snd (Runs.request Sample.happy "v1.2") = (before ++ c :: after)%list ->
      after = [].
Proof.
  exists (removelast (snd (Runs.request Sample.happy "v1.2"))),
    (last (snd (Runs.request Sample.happy "v1.2")) GetToken).
  split; [reflexivity|]. split; [reflexivity|].
  intros after Hcut.
  exact (terminal_update_is_last Sample.happy 42 "Fix the parser"
           (Some "Closes #4.") "main" "fix-parser" Sample.sha "v1.2" Sample.pulls
           Sample.slug Sample.remote _ _ after Hcut eq_refl).
Defined.

Lemma reporting_carries_no_weight_witness :
  Sample.pulls <> check_runs_uri Sample.slug /\
  fst (Runs.request (deny_check_runs Sample.happy Sample.slug) "v1.2")
    = fst (Runs.request Sample.happy "v1.2") /\
  snd (Runs.request (deny_check_runs Sample.happy Sample.slug) "v1.2")
    = filter (fun c => negb (is_update c))
        (snd (Runs.request Sample.happy "v1.2")).
Proof.
  assert (Hurl : Sample.pulls <> check_runs_uri Sample.slug)
    by (vm_compute; discriminate).
  split; [exact Hurl|].
  exact (reporting_carries_no_weight Sample.happy 42 "Fix the parser"
           (Some "Closes #4.") "main" "fix-parser" Sample.sha "v1.2" Sample.pulls
           Sample.slug Sample.remote
           (mkResponse 7 "https://github.com/octo/repo/pull/43")
           eq_refl (fun _ _ => eq_refl) Hurl).
Defined.
